(** * Personal finance dashboard: ingestion (build_db.py) and reporting (app.py)

    A shallow embedding of the two scripts of the repository and the
    properties of their specification.

    - [Py]      : the Python string primitives the scripts call
                  ([str.strip], [str.lower], [str.split], [sorted], ...).
    - [Pd]      : pandas values: cells, timestamps, frames, and the generic
                  frame operations ([drop_duplicates], [merge], ...).
    - [BuildDb] : [build_db.main], as a state-and-exception computation over
                  the SQLite store.
    - [App]     : the filter pipeline, the metrics and the export of app.py.

    Strings are lists of characters with code points below 256.  The parsers
    of pandas ([to_datetime], [to_numeric]), the rendering of numbers and the
    summation of a numeric column are parameters of the development: every
    theorem holds for any behaviour of them. *)

From Stdlib Require Import ZArith List String Ascii Bool Arith Lia Sorted.
From Stdlib Require Import DecimalString Decimal.
From Stdlib Require Import Permutation DecimalNat.
From stdpp Require Import gmap strings.
Import ListNotations.

Local Open Scope nat_scope.
Local Open Scope list_scope.

(* ===================================================================== *)
(** * Python string primitives *)
(* ===================================================================== *)

Module Py.

(** [str.isspace] on one character: TAB..CR, FS..US, SPACE, NEL, NBSP. *)
Definition isspace (c : ascii) : bool :=
  let n := nat_of_ascii c in
  ((9 <=? n) && (n <=? 13)) || ((28 <=? n) && (n <=? 32))
  || (n =? 133) || (n =? 160).

Fixpoint lstrip (s : string) : string :=
  match s with
  | EmptyString => EmptyString
  | String c s' => if isspace c then lstrip s' else s
  end.

Fixpoint rev_string (acc s : string) : string :=
  match s with
  | EmptyString => acc
  | String c s' => rev_string (String c acc) s'
  end.

Definition rstrip (s : string) : string :=
  rev_string EmptyString (lstrip (rev_string EmptyString s)).

(** [s.strip()] *)
Definition strip (s : string) : string := rstrip (lstrip s).

(** [str.lower] on one character: A..Z and the Latin-1 capitals. *)
Definition lower_char (c : ascii) : ascii :=
  let n := nat_of_ascii c in
  if ((65 <=? n) && (n <=? 90))
     || ((192 <=? n) && (n <=? 222) && negb (n =? 215))
  then ascii_of_nat (n + 32) else c.

(** [s.lower()] *)
Fixpoint lower (s : string) : string :=
  match s with
  | EmptyString => EmptyString
  | String c s' => String (lower_char c) (lower s')
  end.

(** [s.split(sep)] for a one-character separator: never the empty list. *)
Fixpoint split (sep : ascii) (s : string) : list string :=
  match s with
  | EmptyString => [EmptyString]
  | String c s' =>
      if Ascii.eqb c sep then EmptyString :: split sep s'
      else match split sep s' with
           | [] => [String c EmptyString]
           | w :: ws => String c w :: ws
           end
  end.

(** [str(n)] for a natural number. *)
Definition str_nat (n : nat) : string :=
  NilZero.string_of_uint (Nat.to_uint n).

(** [str(n).zfill(w)]. *)
Fixpoint zeros (k : nat) : string :=
  match k with
  | O => EmptyString
  | S k' => String "0" (zeros k')
  end.

Definition zfill (w n : nat) : string :=
  let s := str_nat n in
  String.append (zeros (w - String.length s)) s.

(** [x in xs] for strings. *)
Definition isin (xs : list string) (x : string) : bool :=
  existsb (String.eqb x) xs.

(** [sorted(xs)] for strings (code-point order), by insertion. *)
Fixpoint insert_sorted (x : string) (l : list string) : list string :=
  match l with
  | [] => [x]
  | y :: l' => if String.leb x y then x :: l else y :: insert_sorted x l'
  end.

Fixpoint sorted (l : list string) : list string :=
  match l with
  | [] => []
  | x :: l' => insert_sorted x (sorted l')
  end.

(** Position of the first occurrence of [x] ([len(l)] when absent). *)
Fixpoint index_of (x : string) (l : list string) : nat :=
  match l with
  | [] => 0
  | y :: l' => if String.eqb y x then 0 else S (index_of x l')
  end.

End Py.

(* ===================================================================== *)
(** * pandas values and frame operations *)
(* ===================================================================== *)

Module Pd.

(** A calendar date ([datetime.date]) and a timestamp ([pd.Timestamp]):
    the date and the nanoseconds elapsed in that day. *)
Record date := mkDate { year : nat; month : nat; day : nat }.

Record timestamp := mkTs { ts_date : date; ts_nanos : N }.

(** [d1 <= d2] on dates. *)
Definition date_leb (d1 d2 : date) : bool :=
  if year d1 <? year d2 then true
  else if year d2 <? year d1 then false
  else if month d1 <? month d2 then true
  else if month d2 <? month d1 then false
  else day d1 <=? day d2.

(** [t1 <= t2] on timestamps. *)
Definition ts_leb (t1 t2 : timestamp) : bool :=
  if date_leb (ts_date t1) (ts_date t2)
  then if date_leb (ts_date t2) (ts_date t1)
       then (ts_nanos t1 <=? ts_nanos t2)%N else true
  else false.

(** [str(ts.to_period("M"))]: the year-month label, as in 2024-01. *)
Definition period_M (t : timestamp) : string :=
  String.append (Py.zfill 4 (year (ts_date t)))
    (String "-" (Py.zfill 2 (month (ts_date t)))).

(** Python exceptions raised by the scripts and by the pandas calls. *)
Inductive exn :=
| FileNotFoundError (msg : string)
| ValueError (msg : string)
| AttributeError (msg : string).

Section Cells.

Context {num : Type}.

(** One cell of an object-typed frame: text, a number, the float NaN
    that marks a missing value, or Python's None. *)
Inductive cell :=
| CStr (s : string)
| CNum (n : num)
| CNaN
| CNone.

(** A DataFrame: ordered column labels and rows of cells. *)
Record frame := mkFrame { columns : list string; rows : list (list cell) }.

Definition is_str (c : cell) : bool :=
  match c with CStr _ => true | _ => false end.

(** [pd.isna] on one cell. *)
Definition isna (c : cell) : bool :=
  match c with CNaN | CNone => true | _ => false end.

(** The cell of row [r] in the column at position [i]. *)
Definition iloc (i : nat) (r : list cell) : cell := nth i r CNaN.

(** [series.dropna()] on a column of optional values. *)
Definition dropna {A} (l : list (option A)) : list A :=
  flat_map (fun o => match o with Some a => [a] | None => [] end) l.

End Cells.

Arguments cell : clear implicits.
Arguments frame : clear implicits.

(** [series.drop_duplicates()] / [series.unique()]: the first occurrence of
    every value, in order. *)
Fixpoint drop_duplicates (l : list string) : list string :=
  match l with
  | [] => []
  | x :: l' =>
      x :: List.filter (fun y => negb (String.eqb y x)) (drop_duplicates l')
  end.

(** [left.merge(right, on=key)]: the inner join; the rows of [left] in
    order, each paired with every row of [right] that has its key. *)
Definition merge {L R} (key_l : L -> string) (key_r : R -> string)
  (left : list L) (right : list R) : list (L * R) :=
  flat_map (fun l =>
    map (pair l) (List.filter (fun r => String.eqb (key_r r) (key_l l)) right))
    left.

End Pd.

(* ===================================================================== *)
(** * build_db.py *)
(* ===================================================================== *)

Module BuildDb.
Import Pd.

Definition EXPECTED_COLUMNS : list string :=
  [ "transaction_id"; "date"; "account_name"; "category_name"; "type";
    "amount"; "description" ]%string.

Section Main.

Context {num : Type}.

(** [str(x)] of a number, [pd.to_datetime(col, errors="coerce")] at one cell
    of the column [col] (the format is inferred from the whole column), and
    [pd.to_numeric(col, errors="coerce")] at one cell. *)
Variable str_num : num -> string.
Variable to_datetime : list (cell num) -> cell num -> option timestamp.
Variable to_numeric : cell num -> option num.

(** A file of [DATA_DIR.glob("*.csv")]: its name and the frame that
    [pd.read_csv] reads from it. *)
Record csv_file := mkFile { name : string; read_csv : frame num }.

(** The working set after cleaning: [date] and [amount] are parsed (None is
    NaT / NaN), the four text columns are strings. *)
Record row := mkRow {
  transaction_id : cell num;
  date : option timestamp;
  account_name : string;
  category_name : string;
  type : string;
  amount : option num;
  description : string
}.

(** A row of the Transactions table. *)
Record transaction := mkTransaction {
  tx_transaction_id : cell num;
  tx_date : option timestamp;
  tx_type : string;
  tx_amount : option num;
  tx_description : string;
  tx_account_id : nat;
  tx_category_id : nat
}.

(** A table of the store: a dimension table (name, id) or the fact table. *)
Inductive table :=
| Dim (rows : list (string * nat))
| Fact (rows : list transaction).

(** ** The store and the computations over it *)

(** A computation reads and writes the tables of finance.db and either
    returns or raises. *)
Definition M (A : Type) : Type := gmap string table -> (exn + A) * gmap string table.

Definition ret {A} (a : A) : M A := fun db => (inr a, db).

Definition raise {A} (e : exn) : M A := fun db => (inl e, db).

Definition bind {A B} (m : M A) (k : A -> M B) : M B :=
  fun db => match m db with
            | (inr a, db') => k a db'
            | (inl e, db') => (inl e, db')
            end.

(** [frame.to_sql(name, conn, if_exists="replace", index=False)] *)
Definition to_sql (name : string) (t : table) : M unit :=
  fun db => (inr tt, <[name := t]> db).

(** ** Per-file shape repair and validation *)

(** [.str] is refused on a column that holds no text (a numeric column);
    a column without rows has the object type and is accepted. *)
Definition str_accessor_ok (col : list (cell num)) : bool :=
  existsb is_str col || (length col =? 0).

(** [series.str.split(",")] at one cell: the list of fields of a text cell,
    NaN (None here) for any other cell. *)
Definition str_split (c : cell num) : option (list (cell num)) :=
  match c with
  | CStr s => Some (map CStr (Py.split "," s))
  | _ => None
  end.

Definition split_len (o : option (list (cell num))) : nat :=
  match o with Some l => length l | None => 1 end.

(** [expand=True]: the width is that of the longest row; a NaN row is NaN
    in every column, a shorter row is padded with None. *)
Definition expand_row (w : nat) (o : option (list (cell num))) : list (cell num) :=
  match o with
  | Some l => l ++ repeat CNone (w - length l)
  | None => repeat CNaN w
  end.

Definition expand_width (res : list (option (list (cell num)))) : nat :=
  list_max (map split_len res).

(** Lines 31-33: [temp[temp.columns[0]].str.split(",", expand=True)] and
    [temp.columns = EXPECTED_COLUMNS]. *)
Definition shape_repair (temp : frame num) : exn + frame num :=
  let col := map (iloc 0) (rows temp) in
  if str_accessor_ok col then
    let res := map str_split col in
    let w := expand_width res in
    if w =? length EXPECTED_COLUMNS then
      inr (mkFrame EXPECTED_COLUMNS (map (expand_row w) res))
    else
      inl (ValueError
        (String.append "Length mismatch: Expected axis has "
          (String.append (Py.str_nat w)
             " elements, new values have 7 elements")))
  else inl (AttributeError "Can only use .str accessor with string values!").

(** Lines 31-33 of the loop body: the repair applies to a frame of one
    column only. *)
Definition repaired (temp : frame num) : exn + frame num :=
  if length (columns temp) =? 1 then shape_repair temp else inr temp.

(** The body of the loop (lines 28-36). *)
Definition load_file (file : csv_file) : exn + frame num :=
  match repaired (read_csv file) with
  | inl e => inl e
  | inr temp =>
      if decide (columns temp = EXPECTED_COLUMNS) then inr temp
      else inl (ValueError (String.append "Column mismatch in " (name file)))
  end.

(** The loop (lines 24-38). *)
Fixpoint load_all (csv_files : list csv_file) (df_list : list (frame num))
  : exn + list (frame num) :=
  match csv_files with
  | [] => inr df_list
  | file :: rest =>
      match load_file file with
      | inl e => inl e
      | inr temp => load_all rest (df_list ++ [temp])
      end
  end.

(** ** Cleaning and normalisation *)

(** [pd.concat(df_list, ignore_index=True)] of frames with equal columns. *)
Definition concat (df_list : list (frame num)) : list (list (cell num)) :=
  flat_map rows df_list.

(** [astype(str)] at one cell. *)
Definition astype_str (c : cell num) : string :=
  match c with
  | CStr s => s
  | CNum n => str_num n
  | CNaN => "nan"
  | CNone => "None"
  end.

(** Lines 44-48 at one row; the columns are taken at their positions in
    [EXPECTED_COLUMNS], and [dates] is the whole date column. *)
Definition clean_row (dates : list (cell num)) (r : list (cell num)) : row :=
  {| transaction_id := iloc 0 r;
     date := to_datetime dates (iloc 1 r);
     account_name := Py.strip (astype_str (iloc 2 r));
     category_name := Py.strip (astype_str (iloc 3 r));
     type := Py.strip (astype_str (iloc 4 r));
     amount := to_numeric (iloc 5 r);
     description := Py.strip (astype_str (iloc 6 r)) |}.

Definition clean (df : list (list (cell num))) : list row :=
  map (clean_row (map (iloc 1) df)) df.

(** [names.drop_duplicates().reset_index(drop=True)] with the id column
    [index + 1] (lines 51-55). *)
Definition dimension (names : list string) : list (string * nat) :=
  let names := drop_duplicates names in
  combine names (seq 1 (length names)).

(** Lines 57-70: the two merges and the projection. *)
Definition project (p : row * (string * nat) * (string * nat)) : transaction :=
  let '(r, a, c) := p in
  {| tx_transaction_id := transaction_id r;
     tx_date := date r;
     tx_type := type r;
     tx_amount := amount r;
     tx_description := description r;
     tx_account_id := snd a;
     tx_category_id := snd c |}.

Definition build_transactions (df : list row)
  (accounts categories : list (string * nat)) : list transaction :=
  let df := merge account_name fst df accounts in
  let df := merge (fun p => category_name (fst p)) fst df categories in
  map project df.

Definition main (csv_files : list csv_file) : M unit :=
  if (length csv_files =? 0) then
    raise (FileNotFoundError "No CSV files found in the /data folder")
  else
    match load_all csv_files [] with
    | inl e => raise e
    | inr df_list =>
        let df := clean (concat df_list) in
        let accounts := dimension (map account_name df) in
        let categories := dimension (map category_name df) in
        let transactions := build_transactions df accounts categories in
        bind (to_sql "Accounts" (Dim accounts)) (fun _ =>
        bind (to_sql "Categories" (Dim categories)) (fun _ =>
        to_sql "Transactions" (Fact transactions)))
    end.

(** ** Vocabulary of the properties *)

(** A file is accepted when the loop body returns a frame for it. *)
Definition accepted (file : csv_file) : bool :=
  match load_file file with inr _ => true | inl _ => false end.

(** A file is rejected for its shape when the repair does not end in a
    frame that carries the canonical header. *)
Definition shape_rejected (file : csv_file) : Prop :=
  forall temp, repaired (read_csv file) = inr temp ->
               columns temp <> EXPECTED_COLUMNS.

(** The number of rows read from all the files. *)
Definition input_rows (csv_files : list csv_file) : nat :=
  list_sum (map (fun f => length (rows (read_csv f))) csv_files).

(** The cleaned working set of a run (empty when the loop raises). *)
Definition working_set (csv_files : list csv_file) : list row :=
  match load_all csv_files [] with
  | inr df_list => clean (concat df_list)
  | inl _ => []
  end.

(** The fields a transaction keeps from its row of the working set. *)
Definition row_fields (r : row) :=
  (transaction_id r, date r, type r, amount r, description r).

Definition tx_fields (t : transaction) :=
  (tx_transaction_id t, tx_date t, tx_type t, tx_amount t, tx_description t).

(** [table] is the dimension table of the name column [names]: each name of
    the column exactly once, in the order of first occurrence, with the ids
    1, 2, ..., N. *)
Definition enumerates (names : list string) (table : list (string * nat))
  : Prop :=
  List.NoDup (map fst table)
  /\ (forall n, In n (map fst table) <-> In n names)
  /\ map snd table = seq 1 (length table)
  /\ StronglySorted lt (map (fun n => Py.index_of n names) (map fst table)).

(** A transaction is keyed to its row of the working set: it keeps the
    row's fields and carries the ids listed for the row's two names. *)
Definition keyed (accounts categories : list (string * nat))
  (r : row) (t : transaction) : Prop :=
  tx_fields t = row_fields r
  /\ In (account_name r, tx_account_id t) accounts
  /\ In (category_name r, tx_category_id t) categories.

(** The rows of a dimension table that carry the id [k]. *)
Definition resolve (k : nat) (table : list (string * nat))
  : list (string * nat) :=
  List.filter (fun d => snd d =? k) table.

End Main.

Arguments csv_file : clear implicits.
Arguments row : clear implicits.
Arguments transaction : clear implicits.
Arguments table : clear implicits.
Arguments M : clear implicits.

End BuildDb.

(* ===================================================================== *)
(** * app.py *)
(* ===================================================================== *)

Module App.
Import Pd.

(** The columns selected by the query of [load_data], in order. *)
Definition load_columns : list string :=
  [ "transaction_id"; "date"; "description"; "amount"; "type";
    "account_name"; "category_name" ]%string.

(** The columns of [df] once line 46 has appended the month bucket. *)
Definition df_columns : list string := load_columns ++ ["year_month"%string].

Section Dashboard.

Context {num : Type}.

(** [series.sum()] over the non-null values of a numeric column, the
    subtraction of two such sums, and the text that [to_csv] writes for a
    cell of each non-text column (the date format depends on the column). *)
Variable nsum : list num -> num.
Variable nsub : num -> num -> num.
Variable csv_cell : cell num -> string.
Variable csv_date : list (option timestamp) -> option timestamp -> string.
Variable csv_num : option num -> string.

(** A row of the frame returned by [load_data]. *)
Record loaded_row := mkLoaded {
  transaction_id : cell num;
  date : option timestamp;
  description : string;
  amount : option num;
  type : string;
  account_name : string;
  category_name : string
}.

(** A row of [df] after line 46: the loaded columns and [year_month]. *)
Record view_row := mkView { loaded : loaded_row; year_month : string }.

(** Line 41: [df["type"] = df["type"].str.lower()]. *)
Definition lower_type (r : loaded_row) : loaded_row :=
  {| transaction_id := transaction_id r;
     date := date r;
     description := description r;
     amount := amount r;
     type := Py.lower (type r);
     account_name := account_name r;
     category_name := category_name r |}.

(** Line 46: [df["date"].dt.to_period("M").astype(str)]; NaT prints NaT. *)
Definition bucket (o : option timestamp) : string :=
  match o with
  | Some t => period_M t
  | None => "NaT"
  end.

Definition add_year_month (r : loaded_row) : view_row :=
  {| loaded := r; year_month := bucket (date r) |}.

(** Lines 39-46: the frame all later stages work on. *)
Definition prepare (df : list loaded_row) : list view_row :=
  map add_year_month (map lower_type df).

(** Line 48. *)
Definition available_months (df : list view_row) : list string :=
  Py.sorted (drop_duplicates (map year_month df)).

(** The values resolved from the sidebar controls. *)
Record controls := mkControls {
  selected_months : list string;
  date_range : Pd.date * Pd.date;
  selected_categories : list string;
  selected_accounts : list string
}.

(** Stage 1 (lines 89-90). *)
Definition month_filter (selected : list string) (filtered : list view_row)
  : list view_row :=
  match selected with
  | [] => filtered
  | _ => List.filter (fun r => Py.isin selected (year_month r)) filtered
  end.

(** [df["date"].min()] and [.max()]: NaT is skipped. *)
Definition ts_min (l : list timestamp) : option timestamp :=
  fold_right (fun t acc =>
    match acc with
    | Some m => Some (if ts_leb t m then t else m)
    | None => Some t
    end) None l.

Definition ts_max (l : list timestamp) : option timestamp :=
  fold_right (fun t acc =>
    match acc with
    | Some m => Some (if ts_leb m t then t else m)
    | None => Some t
    end) None l.

(** Lines 95-96: [.date()] raises on NaT, which is what [min] and [max]
    give when no row has a date. *)
Definition default_range (df : list view_row) : exn + (Pd.date * Pd.date) :=
  let dates := dropna (map (fun r => date (loaded r)) df) in
  match ts_min dates, ts_max dates with
  | Some lo, Some hi => inr (ts_date lo, ts_date hi)
  | _, _ => inl (ValueError "NaTType does not support date")
  end.

(** Stage 2 (lines 106-109): a comparison with NaT is False. *)
Definition in_range (start_date end_date : Pd.date) (o : option timestamp) : bool :=
  match o with
  | Some t => date_leb start_date (ts_date t) && date_leb (ts_date t) end_date
  | None => false
  end.

Definition date_filter (range : Pd.date * Pd.date) (filtered : list view_row)
  : list view_row :=
  List.filter (fun r => in_range (fst range) (snd range) (date (loaded r)))
    filtered.

(** Stage 3 (lines 112-119). *)
Definition category_options (filtered : list view_row) : list string :=
  Py.sorted (drop_duplicates (map (fun r => category_name (loaded r)) filtered)).

Definition category_filter (selected : list string) (filtered : list view_row)
  : list view_row :=
  match selected with
  | [] => filtered
  | _ => List.filter (fun r => Py.isin selected (category_name (loaded r)))
           filtered
  end.

(** Stage 4 (lines 122-129). *)
Definition account_options (filtered : list view_row) : list string :=
  Py.sorted (drop_duplicates (map (fun r => account_name (loaded r)) filtered)).

Definition account_filter (selected : list string) (filtered : list view_row)
  : list view_row :=
  match selected with
  | [] => filtered
  | _ => List.filter (fun r => Py.isin selected (account_name (loaded r)))
           filtered
  end.

(** Lines 86-129: [filtered] after the four stages. *)
Definition pipeline (df : list view_row) (c : controls) : list view_row :=
  let filtered := df in
  let filtered := month_filter (selected_months c) filtered in
  let filtered := date_filter (date_range c) filtered in
  let filtered := category_filter (selected_categories c) filtered in
  account_filter (selected_accounts c) filtered.

(** The controls as the widgets give them when the viewer touches nothing. *)
Definition default_controls (df : list view_row) (range : Pd.date * Pd.date)
  : controls :=
  let f2 := date_filter range (month_filter (available_months df) df) in
  let cats := category_options f2 in
  let f3 := category_filter cats f2 in
  {| selected_months := available_months df;
     date_range := range;
     selected_categories := cats;
     selected_accounts := account_options f3 |}.

(** Lines 133-135. *)
Definition total (kind : string) (filtered : list view_row) : num :=
  nsum (dropna (map (fun r => amount (loaded r))
    (List.filter (fun r => String.eqb (type (loaded r)) kind) filtered))).

Record metrics := mkMetrics { income : num; expenses : num; net : num }.

Definition summary (filtered : list view_row) : metrics :=
  let income := total "income" filtered in
  let expenses := total "expense" filtered in
  {| income := income; expenses := expenses; net := nsub income expenses |}.

(** Line 220: the records of [filtered.to_csv(index=False)], the header
    first; a null is written as the empty field. *)
Definition csv_record (dates : list (option timestamp)) (r : view_row)
  : list string :=
  [ csv_cell (transaction_id (loaded r));
    csv_date dates (date (loaded r));
    description (loaded r);
    csv_num (amount (loaded r));
    type (loaded r);
    account_name (loaded r);
    category_name (loaded r);
    year_month r ].

Definition to_csv (filtered : list view_row) : list (list string) :=
  df_columns
  :: map (csv_record (map (fun r => date (loaded r)) filtered)) filtered.

(** One run of the script on the loaded frame and the resolved controls:
    the filtered set, the metrics and the export, unless line 95 raises
    because no row has a date. *)
Definition session (df : list loaded_row) (c : controls)
  : exn + (list view_row * metrics * list (list string)) :=
  let df := prepare df in
  match default_range df with
  | inl e => inl e
  | inr _ =>
      let filtered := pipeline df c in
      inr (filtered, summary filtered, to_csv filtered)
  end.

End Dashboard.

Arguments loaded_row : clear implicits.
Arguments view_row : clear implicits.
Arguments metrics : clear implicits.

End App.

(* ===================================================================== *)
(** * A concrete instance and sample inputs *)
(* ===================================================================== *)

Module Example.
Import Pd.

(** Amounts are counted in hundredths. *)
Definition num : Type := Z.

Definition str_num (n : num) : string :=
  NilZero.string_of_int (Z.to_int n).

Definition parse_nat (s : string) : option nat :=
  option_map Nat.of_uint (NilZero.uint_of_string s).

(** Dates in the form YYYY-MM-DD. *)
Definition parse_date (s : string) : option timestamp :=
  match Py.split "-" s with
  | [y; m; d] =>
      match parse_nat y, parse_nat m, parse_nat d with
      | Some y, Some m, Some d => Some (mkTs (mkDate y m d) 0)
      | _, _, _ => None
      end
  | _ => None
  end.

Definition to_datetime (col : list (cell num)) (c : cell num)
  : option timestamp :=
  match c with
  | CStr s => parse_date s
  | _ => None
  end.

(** Text amounts in the form U or U.CC. *)
Definition parse_amount (s : string) : option num :=
  match Py.split "." s with
  | [u] => option_map (fun u => Z.of_nat u * 100)%Z (parse_nat u)
  | [u; c] =>
      match parse_nat u, parse_nat c with
      | Some nu, Some nc =>
          if String.length c =? 2
          then Some (Z.of_nat nu * 100 + Z.of_nat nc)%Z
          else None
      | _, _ => None
      end
  | _ => None
  end.

Definition to_numeric (c : cell num) : option num :=
  match c with
  | CStr s => parse_amount s
  | CNum n => Some n
  | _ => None
  end.

Definition nsum (l : list num) : num := fold_right Z.add 0%Z l.

Definition nsub (a b : num) : num := (a - b)%Z.

Definition csv_cell (c : cell num) : string :=
  match c with
  | CStr s => s
  | CNum n => str_num n
  | _ => ""
  end.

Definition csv_date (col : list (option timestamp)) (o : option timestamp)
  : string :=
  match o with
  | Some t =>
      String.append (period_M t)
        (String "-" (Py.zfill 2 (day (ts_date t))))
  | None => ""
  end.

Definition csv_num (o : option num) : string :=
  match o with
  | Some n => str_num n
  | None => ""
  end.

Definition text_row (cells : list string) : list (cell num) := map CStr cells.

(** Jan.csv and Feb.csv, read with seven columns. *)
Definition jan_csv : BuildDb.csv_file num :=
  BuildDb.mkFile "Jan.csv"
    (mkFrame BuildDb.EXPECTED_COLUMNS
       [ [CNum 1%Z; CStr "2024-01-05"; CStr "Checking"; CStr "Groceries";
          CStr "expense"; CNum 5000%Z; CStr "milk"];
         [CNum 2%Z; CStr "2024-01-10"; CStr "Checking"; CStr "Salary";
          CStr "income"; CNum 200000%Z; CStr "pay"] ]).

Definition feb_csv : BuildDb.csv_file num :=
  BuildDb.mkFile "Feb.csv"
    (mkFrame BuildDb.EXPECTED_COLUMNS
       [ [CNum 1%Z; CStr "2024-02-03"; CStr " Savings "; CStr "Rent";
          CStr "Expense"; CNum 90000%Z; CStr "flat"];
         [CNum 2%Z; CStr "soon"; CNaN; CStr "Salary";
          CStr "income"; CStr "n/a"; CNaN] ]).

(** An export with every line collapsed into one text column. *)
Definition collapsed_header : string :=
  "transaction_id,date,account_name,category_name,type,amount,description".

Definition mar_csv : BuildDb.csv_file num :=
  BuildDb.mkFile "Mar.csv"
    (mkFrame [collapsed_header]
       [ [CStr "3,2024-01-15,Checking,Dining,expense,22.50,lunch"] ]).

(** A collapsed export with a short line. *)
Definition short_csv : BuildDb.csv_file num :=
  BuildDb.mkFile "Short.csv"
    (mkFrame [collapsed_header]
       [ [CStr "1,2024-01-05,Checking,Groceries,expense,50.00,milk"];
         [CStr "7,2024-01-01"] ]).

(** A collapsed export whose lines hold two fields. *)
Definition narrow_csv : BuildDb.csv_file num :=
  BuildDb.mkFile "Narrow.csv"
    (mkFrame ["transaction_id,date"%string] [ [CStr "1,2024-01-05"] ]).

(** A file read with six columns. *)
Definition six_csv : BuildDb.csv_file num :=
  BuildDb.mkFile "Six.csv"
    (mkFrame
       [ "transaction_id"; "date"; "account_name"; "category_name"; "type";
         "amount" ]%string
       [ [CNum 9%Z; CStr "2024-03-01"; CStr "Checking"; CStr "Dining";
          CStr "expense"; CNum 100%Z] ]).

(** A collapsed export with an empty account_name field. *)
Definition blank_csv : BuildDb.csv_file num :=
  BuildDb.mkFile "Blank.csv"
    (mkFrame [collapsed_header]
       [ [CStr "4,2024-01-20,,Dining,expense,5.00,tea"] ]).

(** The line of Short.csv that stops after the date, once repaired. *)
Definition short_row : list (cell num) :=
  [CStr "7"; CStr "2024-01-01"; CNone; CNone; CNone; CNone; CNone].

(** The row of Feb.csv without an account name. *)
Definition nan_row : list (cell num) :=
  [CNum 2%Z; CStr "soon"; CNaN; CStr "Salary"; CStr "income"; CStr "n/a";
   CNaN].

(** The batches used below. *)
Definition two_months : list (BuildDb.csv_file num) := [jan_csv; feb_csv].

Definition short_batch : list (BuildDb.csv_file num) := [jan_csv; short_csv].

Definition narrow_batch : list (BuildDb.csv_file num) :=
  [jan_csv; narrow_csv].

Definition sample_files : list (BuildDb.csv_file num) :=
  [jan_csv; feb_csv; mar_csv].

Definition broken_batch : list (BuildDb.csv_file num) := [jan_csv; six_csv].

Definition main (csv_files : list (BuildDb.csv_file num)) : BuildDb.M num unit :=
  BuildDb.main str_num to_datetime to_numeric csv_files.

(** A frame as [load_data] returns it: two rows of January, one of
    February, one without a date. *)
Definition loaded : list (App.loaded_row num) :=
  [ App.mkLoaded (CNum 1%Z) (Some (mkTs (mkDate 2024 1 5) 0)) "milk"
      (Some 5000%Z) "expense" "Checking" "Groceries";
    App.mkLoaded (CNum 2%Z) (Some (mkTs (mkDate 2024 1 10) 0)) "pay"
      (Some 200000%Z) "Income" "Checking" "Salary";
    App.mkLoaded (CNum 1%Z) (Some (mkTs (mkDate 2024 2 3) 0)) "flat"
      (Some 90000%Z) "expense" "Savings" "Rent";
    App.mkLoaded (CNum 2%Z) None "" None "income" "nan" "Salary" ].

(** The month selector set on January, every other control left alone. *)
Definition january : App.controls :=
  App.mkControls ["2024-01"%string] (mkDate 2024 1 5, mkDate 2024 2 3) [] [].

Definition session (df : list (App.loaded_row num))
  (c : App.controls) :=
  App.session nsum nsub csv_cell csv_date csv_num df c.

End Example.

(* ===================================================================== *)
(** * Vocabulary for the properties of strings *)
(* ===================================================================== *)

Module Text.

Definition first_char (s : string) : option ascii :=
  match s with
  | EmptyString => None
  | String c _ => Some c
  end.

Fixpoint last_char (s : string) : option ascii :=
  match s with
  | EmptyString => None
  | String c EmptyString => Some c
  | String _ s' => last_char s'
  end.

(** Every character of [s] is white space. *)
Fixpoint all_space (s : string) : bool :=
  match s with
  | EmptyString => true
  | String c s' => Py.isspace c && all_space s'
  end.

Definition not_space (o : option ascii) : bool :=
  match o with
  | Some c => negb (Py.isspace c)
  | None => true
  end.

(** [s] neither starts nor ends with white space. *)
Definition trimmed (s : string) : bool :=
  not_space (first_char s) && not_space (last_char s).

(** [s.count(c)] for one character. *)
Fixpoint count_char (c : ascii) (s : string) : nat :=
  match s with
  | EmptyString => 0
  | String d s' => (if Ascii.eqb d c then 1 else 0) + count_char c s'
  end.

End Text.

(* ===================================================================== *)
(** * app.py: the query of load_data *)
(* ===================================================================== *)

Module LoadData.
Import Pd.

Section Query.

Context {num : Type}.

(** The value that [pd.read_sql] gives back for a stored transaction_id,
    given the whole stored column: a NULL comes back as NaN or as None
    according to the type pandas infers for the column. *)
Variable read_id : list (cell num) -> cell num -> cell num.

(** The SELECT list (lines 14-20) on one joined triple; [ids] is the
    transaction_id column of the Transactions table. *)
Definition select (ids : list (cell num)) (t : BuildDb.transaction num)
  (a c : string * nat) : App.loaded_row num :=
  App.mkLoaded (read_id ids (BuildDb.tx_transaction_id t)) (BuildDb.tx_date t)
    (BuildDb.tx_description t) (BuildDb.tx_amount t) (BuildDb.tx_type t)
    (fst a) (fst c).

(** Lines 21-23: Transactions JOIN Accounts JOIN Categories on the ids. *)
Definition join (txs : list (BuildDb.transaction num))
  (accounts categories : list (string * nat)) : list (App.loaded_row num) :=
  let ids := map BuildDb.tx_transaction_id txs in
  flat_map (fun t =>
    flat_map (fun a =>
      map (select ids t a)
        (List.filter (fun c => BuildDb.tx_category_id t =? snd c) categories))
      (List.filter (fun a => BuildDb.tx_account_id t =? snd a) accounts))
    txs.

(** The order of ORDER BY t.date: NULL sorts first. *)
Definition date_le (a b : option timestamp) : bool :=
  match a, b with
  | None, _ => true
  | Some _, None => false
  | Some x, Some y => ts_leb x y
  end.

(** Line 24.  The order among rows of equal date is the engine's choice;
    here they keep the order of the join. *)
Fixpoint insert_by_date (r : App.loaded_row num)
  (l : list (App.loaded_row num)) : list (App.loaded_row num) :=
  match l with
  | [] => [r]
  | y :: l' =>
      if date_le (App.date r) (App.date y) then r :: l
      else y :: insert_by_date r l'
  end.

Definition order_by_date (l : list (App.loaded_row num))
  : list (App.loaded_row num) :=
  fold_right insert_by_date [] l.

(** [load_data] (lines 10-28) on the store; None when the query fails
    because a table is absent or is not of the expected kind. *)
Definition load_data (db : gmap string (BuildDb.table num))
  : option (list (App.loaded_row num)) :=
  match db !! "Transactions", db !! "Accounts", db !! "Categories" with
  | Some (BuildDb.Fact txs), Some (BuildDb.Dim accounts),
    Some (BuildDb.Dim categories) =>
      Some (order_by_date (join txs accounts categories))
  | _, _, _ => None
  end.

(** A row of the cleaned working set, seen as a row of the load query;
    [ids] is the transaction_id column of the working set. *)
Definition as_loaded (ids : list (cell num)) (r : BuildDb.row num)
  : App.loaded_row num :=
  App.mkLoaded (read_id ids (BuildDb.transaction_id r)) (BuildDb.date r)
    (BuildDb.description r) (BuildDb.amount r) (BuildDb.type r)
    (BuildDb.account_name r) (BuildDb.category_name r).

(** The working set as the load query gives it back. *)
Definition loaded_set (df : list (BuildDb.row num))
  : list (App.loaded_row num) :=
  map (as_loaded (map BuildDb.transaction_id df)) df.

End Query.

End LoadData.

(* ===================================================================== *)
(** * app.py: the expense sections *)
(* ===================================================================== *)

Module Charts.
Import Pd App.

Section Expenses.

Context {num : Type}.

(** [series.sum()] over the non-null values, and [<=] on two numbers. *)
Variable nsum : list num -> num.
Variable nleb : num -> num -> bool.

(** Line 152. *)
Definition expense_df (filtered : list (view_row num)) : list (view_row num) :=
  List.filter (fun r => String.eqb (type (loaded r)) "expense") filtered.

(** The amounts of the group of category [k]. *)
Definition group_amounts (k : string) (df : list (view_row num))
  : list (option num) :=
  map (fun r => amount (loaded r))
    (List.filter (fun r => String.eqb (category_name (loaded r)) k) df).

(** Line 155: [groupby("category_name", as_index=False)["amount"].sum()];
    the groups come in the order of their keys. *)
Definition category_totals (df : list (view_row num)) : list (string * num) :=
  map (fun k => (k, nsum (dropna (group_amounts k df))))
    (Py.sorted (drop_duplicates (map (fun r => category_name (loaded r)) df))).

(** [a] may stand before [b] when amounts are sorted in descending order:
    NaN goes last. *)
Definition amount_ge (a b : option num) : bool :=
  match a, b with
  | _, None => true
  | None, Some _ => false
  | Some x, Some y => nleb y x
  end.

(** Line 196: [sort_values("amount", ascending=False)].  The order among
    rows of equal amount is the library's choice; here they keep their
    order. *)
Fixpoint insert_desc (r : view_row num) (l : list (view_row num))
  : list (view_row num) :=
  match l with
  | [] => [r]
  | y :: l' =>
      if amount_ge (amount (loaded r)) (amount (loaded y)) then r :: l
      else y :: insert_desc r l'
  end.

Definition sort_values_desc (df : list (view_row num)) : list (view_row num) :=
  fold_right insert_desc [] df.

(** [.head(5)] *)
Definition top5 (df : list (view_row num)) : list (view_row num) :=
  firstn 5 (sort_values_desc df).

(** What a section of the page shows: its data, or a notice. *)
Inductive section (A : Type) :=
| Shown (a : A)
| Notice (msg : string).

Arguments Shown {A} a.
Arguments Notice {A} msg.

(** Lines 154-167, 175-187 and 195-211: each of the three sections tests
    [expense_df.empty] on its own. *)
Record expense_sections := mkSections {
  bar_chart : section (list (string * num));
  pie : section (list (string * num));
  top_expenses : section (list (view_row num))
}.

Definition is_empty {A} (l : list A) : bool :=
  match l with [] => true | _ => false end.

Definition render (filtered : list (view_row num)) : expense_sections :=
  let expense_df := expense_df filtered in
  {| bar_chart :=
       if negb (is_empty expense_df) then Shown (category_totals expense_df)
       else Notice "No expense data for the selected filters.";
     pie :=
       if negb (is_empty expense_df) then Shown (category_totals expense_df)
       else Notice "No expense data to show.";
     top_expenses :=
       if negb (is_empty expense_df) then Shown (top5 expense_df)
       else Notice "No expense records to display." |}.

End Expenses.

Arguments Shown {A} a.
Arguments Notice {A} msg.
Arguments expense_sections : clear implicits.

End Charts.

(* ===================================================================== *)
(** * Vocabulary for the properties of the reporting view *)
(* ===================================================================== *)

Module Criteria.
Import Pd App.

Section Rows.

Context {num : Type}.

(** [v] passes a membership stage set on [selected]. *)
Definition chosen (selected : list string) (v : string) : bool :=
  match selected with
  | [] => true
  | _ => Py.isin selected v
  end.

Definition has_date (r : view_row num) : bool :=
  match date (loaded r) with Some _ => true | None => false end.

(** The row passes the four stages set on the controls [c]. *)
Definition passes (c : controls) (r : view_row num) : bool :=
  chosen (selected_months c) (year_month r)
  && in_range (fst (date_range c)) (snd (date_range c)) (date (loaded r))
  && chosen (selected_categories c) (category_name (loaded r))
  && chosen (selected_accounts c) (account_name (loaded r)).

(** The row counts in a metric: it is typed income or expense and has an
    amount. *)
Definition counted (r : view_row num) : bool :=
  (String.eqb (type (loaded r)) "income"
   || String.eqb (type (loaded r)) "expense")
  && match amount (loaded r) with Some _ => true | None => false end.

End Rows.

End Criteria.

(* ===================================================================== *)
(** * More sample inputs *)
(* ===================================================================== *)

Module Example2.
Import Pd Example.

(** A store that already holds a table of its own. *)
Definition old_store : gmap string (BuildDb.table num) :=
  <["Budget" := BuildDb.Dim [("Rent"%string, 1500)]]> ∅.

(** The store after the three sample files are built, and its tables. *)
Definition built : gmap string (BuildDb.table num) :=
  snd (main sample_files ∅).

Definition built_accounts : list (string * nat) :=
  [ ("Checking", 1); ("Savings", 2); ("nan", 3) ]%string.

Definition built_categories : list (string * nat) :=
  [ ("Groceries", 1); ("Salary", 2); ("Rent", 3); ("Dining", 4) ]%string.

Definition built_transactions : list (BuildDb.transaction num) :=
  BuildDb.build_transactions
    (BuildDb.working_set str_num to_datetime to_numeric sample_files)
    built_accounts built_categories.

(** The batch whose second file is refused. *)
Definition failing_batch : list (BuildDb.csv_file num) :=
  [jan_csv] ++ six_csv :: [feb_csv].

(** Short.csv once repaired. *)
Definition short_repaired : frame num :=
  mkFrame BuildDb.EXPECTED_COLUMNS
    [ text_row [ "1"; "2024-01-05"; "Checking"; "Groceries"; "expense";
                 "50.00"; "milk" ]%string;
      short_row ].

(** The sample frame as the stages see it, and its span of dates. *)
Definition prepared : list (App.view_row num) := App.prepare loaded.

Definition span : Pd.date * Pd.date := (mkDate 2024 1 5, mkDate 2024 2 3).

(** Stored transaction ids are read back as they are. *)
Definition read_id (ids : list (cell num)) (c : cell num) : cell num := c.

(** [<=] on amounts. *)
Definition nleb (a b : num) : bool := (a <=? b)%Z.

End Example2.

(* ===================================================================== *)
(** * Facts about the primitives *)
(* ===================================================================== *)

Module PyFacts.
Import Py.

Lemma isin_In xs x : isin xs x = true <-> In x xs.
Proof.
  unfold isin. rewrite existsb_exists. split.
  - intros [y [Hy He]]. apply String.eqb_eq in He. now subst.
  - intros H. exists x. split; [assumption | apply String.eqb_refl].
Qed.

Lemma insert_sorted_In x y l : In y (insert_sorted x l) <-> y = x \/ In y l.
Proof.
  induction l as [|z l IH]; simpl.
  - intuition.
  - destruct (String.leb x z); simpl; [intuition | rewrite IH; intuition].
Qed.

Lemma sorted_In x l : In x (sorted l) <-> In x l.
Proof.
  induction l as [|y l IH]; simpl; [reflexivity|].
  rewrite insert_sorted_In, IH. intuition.
Qed.

Lemma split_nonempty sep s : split sep s <> [].
Proof.
  destruct s as [|c s]; simpl; [discriminate|].
  destruct (Ascii.eqb c sep); [discriminate|].
  destruct (split sep s); discriminate.
Qed.

Lemma filter_all {A} (p : A -> bool) l :
  (forall x, In x l -> p x = true) -> List.filter p l = l.
Proof.
  induction l as [|x l IH]; simpl; intros H; [reflexivity|].
  rewrite (H x) by now left. f_equal. apply IH. intros; apply H; now right.
Qed.

Lemma filter_map_comm {A B} (f : A -> B) (p : B -> bool) l :
  List.filter p (map f l) = map f (List.filter (fun x => p (f x)) l).
Proof.
  induction l as [|x l IH]; simpl; [reflexivity|].
  destruct (p (f x)); simpl; now rewrite IH.
Qed.

Lemma filter_filter {A} (p q : A -> bool) l :
  List.filter p (List.filter q l) = List.filter (fun x => q x && p x) l.
Proof.
  induction l as [|x l IH]; simpl; [reflexivity|].
  destruct (q x); simpl; [destruct (p x)|]; now rewrite IH.
Qed.

End PyFacts.

Module PdFacts.
Import Pd.

Lemma drop_duplicates_In x l : In x (drop_duplicates l) <-> In x l.
Proof.
  induction l as [|y l IH]; simpl; [reflexivity|].
  rewrite filter_In, IH. split.
  - intros [H | [H _]]; auto.
  - intros [H | H]; [now left|].
    destruct (String.eqb x y) eqn:E.
    + apply String.eqb_eq in E. now left.
    + right. split; [assumption | reflexivity].
Qed.

Lemma NoDup_filter {A} (p : A -> bool) l : List.NoDup l -> List.NoDup (List.filter p l).
Proof.
  induction 1 as [|x l Hx Hl IH]; simpl; [constructor|].
  destruct (p x); [constructor|]; auto.
  rewrite filter_In. tauto.
Qed.

Lemma drop_duplicates_NoDup l : List.NoDup (drop_duplicates l).
Proof.
  induction l as [|y l IH]; simpl; constructor.
  - rewrite filter_In. intros [_ H]. now rewrite String.eqb_refl in H.
  - now apply NoDup_filter.
Qed.

Lemma StronglySorted_map_filter {A} (f : A -> nat) (p : A -> bool) l :
  StronglySorted lt (map f l) -> StronglySorted lt (map f (List.filter p l)).
Proof.
  induction l as [|x l IH]; simpl; intros H; [constructor|].
  apply StronglySorted_inv in H as [Hs Hx].
  destruct (p x); simpl; [constructor|]; auto.
  rewrite List.Forall_forall in *. intros y Hy. apply Hx.
  apply in_map_iff in Hy as [z [<- Hz]]. apply filter_In in Hz as [Hz _].
  now apply in_map.
Qed.

(** The names kept by [drop_duplicates] are in the order of their first
    occurrence in [l]. *)
Lemma drop_duplicates_first_occurrence l :
  StronglySorted lt (map (fun x => Py.index_of x l) (drop_duplicates l)).
Proof.
  induction l as [|y l IH]; simpl; [constructor|].
  rewrite String.eqb_refl. constructor.
  - rewrite map_ext_in with (g := fun x => S (Py.index_of x l)).
    + apply StronglySorted_map_filter with (f := fun x => S (Py.index_of x l)).
      clear -IH. induction (drop_duplicates l) as [|z k IHk]; simpl;
        [constructor|].
      apply StronglySorted_inv in IH as [Hs Hz]. constructor; [auto|].
      rewrite List.Forall_forall in *. intros n Hn.
      apply in_map_iff in Hn as [w [<- Hw]].
      apply -> Nat.succ_lt_mono. apply Hz.
      apply in_map_iff. now exists w.
    + intros x Hx. apply filter_In in Hx as [_ Hx].
      destruct (String.eqb x y) eqn:E; [discriminate|].
      rewrite String.eqb_sym, E. reflexivity.
  - rewrite List.Forall_forall. intros n Hn.
    apply in_map_iff in Hn as [w [<- Hw]]. apply filter_In in Hw as [_ Hw].
    destruct (String.eqb w y) eqn:E; [discriminate|].
    rewrite String.eqb_sym, E. lia.
Qed.

Lemma filter_none {A} (p : A -> bool) l :
  (forall x, In x l -> p x = false) -> List.filter p l = [].
Proof.
  induction l as [|x l IH]; simpl; intros H; [reflexivity|].
  rewrite (H x) by now left. apply IH. intros; apply H; now right.
Qed.

Lemma filter_key_unique {R} (key_r : R -> string) (right : list R) k :
  List.NoDup (map key_r right) -> In k (map key_r right) ->
  exists r, List.filter (fun r => String.eqb (key_r r) k) right = [r]
            /\ In r right /\ key_r r = k.
Proof.
  induction right as [|r right IH]; simpl; intros Hnd Hin; [contradiction|].
  inversion Hnd as [|? ? Hr Hnd']; subst.
  destruct (String.eqb (key_r r) k) eqn:E.
  - apply String.eqb_eq in E. exists r. split; [|auto].
    f_equal. apply filter_none. intros x Hx. apply not_true_iff_false.
    rewrite String.eqb_eq. intros Hk. apply Hr. rewrite E, <- Hk.
    now apply in_map.
  - destruct Hin as [Hin | Hin]; [apply String.eqb_neq in E; contradiction|].
    destruct (IH Hnd' Hin) as [r' [Hf [Hi Hk]]]. exists r'. auto.
Qed.

Lemma merge_unique {L R} (key_l : L -> string) (key_r : R -> string)
  (left : list L) (right : list R) :
  List.NoDup (map key_r right) ->
  (forall l, In l left -> In (key_l l) (map key_r right)) ->
  map fst (merge key_l key_r left right) = left
  /\ Forall (fun p => In (snd p) right /\ key_r (snd p) = key_l (fst p))
       (merge key_l key_r left right).
Proof.
  intros Hnd. unfold merge.
  induction left as [|l left IH]; simpl; intros Hin; [split; constructor|].
  destruct (filter_key_unique key_r right (key_l l) Hnd) as [r [Hf [Hi Hk]]];
    [apply Hin; now left|].
  destruct IH as [IH1 IH2]; [intros; apply Hin; now right|].
  rewrite Hf. simpl. split; [now rewrite IH1|].
  constructor; [split; assumption | assumption].
Qed.

(** In a table whose ids are unique, an id selects the one row carrying
    it. *)
Lemma filter_id_unique {R} (key_r : R -> nat) (right : list R) r :
  List.NoDup (map key_r right) -> In r right ->
  List.filter (fun x => key_r x =? key_r r) right = [r].
Proof.
  induction right as [|x right IH]; simpl; intros Hnd Hin; [contradiction|].
  inversion Hnd as [|? ? Hx Hnd']; subst.
  destruct Hin as [-> | Hin].
  - rewrite Nat.eqb_refl. f_equal. apply filter_none. intros y Hy.
    apply Nat.eqb_neq. intros E. apply Hx. rewrite <- E. now apply in_map.
  - destruct (key_r x =? key_r r) eqn:E.
    + apply Nat.eqb_eq in E. exfalso. apply Hx. rewrite E. now apply in_map.
    + now apply IH.
Qed.

End PdFacts.

(* ===================================================================== *)
(** * Properties of build_db.py *)
(* ===================================================================== *)

Module BuildDbSpec.
Import Pd BuildDb PyFacts PdFacts.

Section Ingestion.

Context {num : Type}.
Variable str_num : num -> string.
Variable to_datetime : list (cell num) -> cell num -> option timestamp.
Variable to_numeric : cell num -> option num.

Local Abbreviation main := (BuildDb.main str_num to_datetime to_numeric).
Local Abbreviation working_set :=
  (BuildDb.working_set str_num to_datetime to_numeric).
Local Abbreviation clean := (BuildDb.clean str_num to_datetime to_numeric).
Local Abbreviation clean_row :=
  (BuildDb.clean_row str_num to_datetime to_numeric).

(** ** The loop *)

Lemma shape_repair_rows (temp t : frame num) :
  shape_repair temp = inr t ->
  columns t = EXPECTED_COLUMNS /\ length (rows t) = length (rows temp).
Proof.
  unfold shape_repair. destruct (str_accessor_ok _); [|discriminate].
  destruct (_ =? _); [|discriminate].
  intros H. injection H as <-. simpl. now rewrite !length_map.
Qed.

Lemma repaired_rows (temp t : frame num) :
  repaired temp = inr t -> length (rows t) = length (rows temp).
Proof.
  unfold repaired. destruct (_ =? 1).
  - intros H. now apply shape_repair_rows in H.
  - intros H. now injection H as <-.
Qed.

Lemma load_file_ok (file : csv_file num) t :
  load_file file = inr t ->
  columns t = EXPECTED_COLUMNS
  /\ length (rows t) = length (rows (read_csv file)).
Proof.
  unfold load_file. destruct (repaired _) as [e | temp] eqn:E; [discriminate|].
  destruct (decide _) as [Hc | Hc]; [|discriminate].
  intros H. injection H as <-. split; [assumption|].
  now apply repaired_rows.
Qed.

Lemma shape_rejected_error (file : csv_file num) :
  shape_rejected file -> accepted file = false.
Proof.
  unfold shape_rejected, accepted, load_file. intros H.
  destruct (repaired _) as [e | temp]; [reflexivity|].
  destruct (decide _) as [Hc | Hc]; [|reflexivity].
  now destruct (H temp eq_refl).
Qed.

Lemma load_all_ok (csv_files : list (csv_file num)) : forall acc out,
  load_all csv_files acc = inr out ->
  exists frs, out = acc ++ frs
    /\ List.Forall2 (fun f t => load_file f = inr t) csv_files frs.
Proof.
  induction csv_files as [|f fs IH]; simpl; intros acc out H.
  - injection H as <-. exists []. split; [now rewrite app_nil_r | constructor].
  - destruct (load_file f) as [e | t] eqn:E; [discriminate|].
    destruct (IH _ _ H) as [frs [-> HF]]. exists (t :: frs).
    split; [now rewrite <- app_assoc | now constructor].
Qed.

Lemma load_all_accepted (csv_files : list (csv_file num)) : forall acc,
  forallb accepted csv_files = true ->
  exists out, load_all csv_files acc = inr out.
Proof.
  induction csv_files as [|f fs IH]; simpl; intros acc H; [now eexists|].
  apply andb_prop in H as [Hf Hfs]. unfold accepted in Hf.
  destruct (load_file f); [discriminate | now apply IH].
Qed.

Lemma load_all_rejected (csv_files : list (csv_file num)) : forall acc,
  List.Exists (fun f => accepted f = false) csv_files ->
  exists e, load_all csv_files acc = inl e.
Proof.
  induction csv_files as [|f fs IH]; simpl; intros acc H;
    inversion H as [? ? Hf | ? ? Hfs]; subst.
  - unfold accepted in Hf. destruct (load_file f); [now eexists | discriminate].
  - destruct (load_file f); [now eexists | now apply IH].
Qed.

Lemma concat_length (csv_files : list (csv_file num)) frs :
  List.Forall2 (fun f t => load_file f = inr t) csv_files frs ->
  length (concat frs) = input_rows csv_files.
Proof.
  unfold concat, input_rows.
  induction 1 as [|f t fs frs Hf _ IH]; simpl; [reflexivity|].
  rewrite length_app, IH. f_equal. now apply load_file_ok in Hf.
Qed.

(** ** The dimension tables *)

Lemma combine_seq_fst (l : list string) : forall k,
  map fst (combine l (seq k (length l))) = l.
Proof. induction l as [|x l IH]; simpl; intros k; [|rewrite IH]; reflexivity. Qed.

Lemma combine_seq_snd (l : list string) : forall k,
  map snd (combine l (seq k (length l))) = seq k (length l).
Proof. induction l as [|x l IH]; simpl; intros k; [|rewrite IH]; reflexivity. Qed.

Lemma dimension_names names : map fst (dimension names) = drop_duplicates names.
Proof. apply combine_seq_fst. Qed.

Lemma dimension_ids names :
  map snd (dimension names) = seq 1 (length (dimension names)).
Proof.
  unfold dimension. rewrite combine_seq_snd, length_combine, length_seq.
  now rewrite Nat.min_id.
Qed.

Lemma dimension_enumerates names : enumerates names (dimension names).
Proof.
  unfold enumerates. rewrite dimension_names, dimension_ids.
  repeat split.
  - apply drop_duplicates_NoDup.
  - apply drop_duplicates_In.
  - apply drop_duplicates_In.
  - apply drop_duplicates_first_occurrence.
Qed.

Lemma dimension_ids_NoDup names : List.NoDup (map snd (dimension names)).
Proof. rewrite dimension_ids. apply seq_NoDup. Qed.

(** ** The merges *)

Lemma Forall2_map_same {A B C} (R : B -> C -> Prop) (f : A -> B) (g : A -> C)
  (l : list A) :
  List.Forall (fun x => R (f x) (g x)) l -> List.Forall2 R (map f l) (map g l).
Proof. induction 1; simpl; constructor; auto. Qed.

Lemma Forall2_In_l {A B} (R : A -> B -> Prop) l1 l2 x :
  List.Forall2 R l1 l2 -> In x l1 -> exists y, In y l2 /\ R x y.
Proof.
  induction 1 as [|a b l1 l2 Hab _ IH]; simpl; intros Hin; [contradiction|].
  destruct Hin as [-> | Hin]; [exists b; auto|].
  destruct (IH Hin) as [y [Hy HR]]. exists y. auto.
Qed.

Lemma Forall2_length_eq {A B} (R : A -> B -> Prop) l1 l2 :
  List.Forall2 R l1 l2 -> length l1 = length l2.
Proof. induction 1; simpl; congruence. Qed.

Lemma Forall2_Forall_r {A B} (R : A -> B -> Prop) (P : B -> Prop) l1 l2 :
  List.Forall2 R l1 l2 -> (forall x y, R x y -> P y) -> List.Forall P l2.
Proof. induction 1; intros HP; constructor; eauto. Qed.

Lemma Forall2_map_eq {A B C} (R : A -> B -> Prop) (f : A -> C) (g : B -> C)
  l1 l2 :
  List.Forall2 R l1 l2 -> (forall x y, R x y -> g y = f x) ->
  map g l2 = map f l1.
Proof. induction 1; intros H'; simpl; [reflexivity|]. f_equal; auto. Qed.

Lemma build_transactions_keyed (df : list (row num)) :
  let accounts := dimension (map account_name df) in
  let categories := dimension (map category_name df) in
  List.Forall2 (keyed accounts categories) df
    (build_transactions df accounts categories).
Proof.
  intros accounts categories. unfold build_transactions.
  destruct (merge_unique account_name fst df accounts) as [Hm1 Hk1].
  { unfold accounts. rewrite dimension_names. apply drop_duplicates_NoDup. }
  { intros l Hl. unfold accounts. rewrite dimension_names.
    apply drop_duplicates_In. now apply in_map. }
  set (m1 := merge account_name fst df accounts) in *.
  destruct (merge_unique (fun p : row num * (string * nat) =>
              category_name (fst p)) fst m1 categories) as [Hm2 Hk2].
  { unfold categories. rewrite dimension_names. apply drop_duplicates_NoDup. }
  { intros p Hp. unfold categories. rewrite dimension_names.
    apply drop_duplicates_In. apply in_map_iff. exists (fst p).
    split; [reflexivity|]. rewrite <- Hm1. now apply in_map. }
  set (m2 := merge _ fst m1 categories) in *.
  rewrite <- Hm1 at 1. rewrite <- Hm2 at 1. rewrite map_map.
  apply Forall2_map_same.
  rewrite List.Forall_forall in *. intros [[r a] c] Hp.
  destruct (Hk2 _ Hp) as [Hc Hkc]. simpl in Hc, Hkc.
  assert (Ha : In (r, a) m1).
  { rewrite <- Hm2. apply in_map_iff. exists (r, a, c). auto. }
  destruct (Hk1 _ Ha) as [Ha' Hka]. simpl in Ha', Hka.
  unfold keyed. simpl. repeat split.
  - rewrite <- Hka. now destruct a.
  - rewrite <- Hkc. now destruct c.
Qed.

(** ** The run *)

Lemma main_success (csv_files : list (csv_file num)) df_list db :
  csv_files <> [] -> load_all csv_files [] = inr df_list ->
  let df := clean (concat df_list) in
  let accounts := dimension (map account_name df) in
  let categories := dimension (map category_name df) in
  main csv_files db =
    (inr tt,
     <["Transactions" := Fact (build_transactions df accounts categories)]>
       (<["Categories" := Dim categories]>
          (<["Accounts" := Dim accounts]> db))).
Proof.
  intros Hne Hl. unfold BuildDb.main.
  destruct csv_files as [|f fs]; [contradiction|].
  cbn [length Nat.eqb]. rewrite Hl. reflexivity.
Qed.

Lemma main_inv (csv_files : list (csv_file num)) db r db' :
  main csv_files db = (r, db') ->
  (exists e, r = inl e /\ db' = db)
  \/ (csv_files <> [] /\ exists df_list, load_all csv_files [] = inr df_list).
Proof.
  unfold BuildDb.main. destruct csv_files as [|f fs].
  - cbn. intros H. injection H as <- <-. left. eauto.
  - cbn [length Nat.eqb].
    destruct (load_all (f :: fs) []) as [e | df_list] eqn:E.
    + cbn. intros H. injection H as <- <-. left. eauto.
    + intros _. right. split; [discriminate | eauto].
Qed.

Lemma lookup_accounts (db : gmap string (table num)) a c t :
  <["Transactions" := t]> (<["Categories" := c]> (<["Accounts" := a]> db))
    !! "Accounts" = Some a.
Proof.
  rewrite lookup_insert_ne by discriminate.
  rewrite lookup_insert_ne by discriminate. apply lookup_insert_eq.
Qed.

Lemma lookup_categories (db : gmap string (table num)) a c t :
  <["Transactions" := t]> (<["Categories" := c]> (<["Accounts" := a]> db))
    !! "Categories" = Some c.
Proof. rewrite lookup_insert_ne by discriminate. apply lookup_insert_eq. Qed.

Lemma lookup_transactions (db : gmap string (table num)) a c t :
  <["Transactions" := t]> (<["Categories" := c]> (<["Accounts" := a]> db))
    !! "Transactions" = Some t.
Proof. apply lookup_insert_eq. Qed.

(** ** The claims on ingestion *)

(** C1. For every valid set of input files (not empty, each file accepted
    by the loop body after shape repair), the run succeeds and the
    Transactions table it writes has as many rows as the input files
    together; the transactions are the rows of the cleaned working set, in
    order and one for one, so the two joins by name neither drop nor
    duplicate a row. *)
Theorem C1_row_count (csv_files : list (csv_file num))
  (db : gmap string (table num)) :
  csv_files <> [] -> forallb accepted csv_files = true ->
  exists db' txs,
    main csv_files db = (inr tt, db')
    /\ db' !! "Transactions" = Some (Fact txs)
    /\ length txs = input_rows csv_files
    /\ length (working_set csv_files) = input_rows csv_files
    /\ map tx_fields txs = map row_fields (working_set csv_files).
Proof.
  intros Hne Hacc.
  destruct (load_all_accepted csv_files [] Hacc) as [df_list Hl].
  pose proof (main_success csv_files df_list db Hne Hl) as Hm. cbv zeta in Hm.
  pose proof (build_transactions_keyed (clean (concat df_list))) as Hk.
  cbv zeta in Hk.
  destruct (load_all_ok _ _ _ Hl) as [frs [-> HF]]. simpl in *.
  assert (Hlen : length (clean (concat frs)) = input_rows csv_files).
  { unfold BuildDb.clean. rewrite length_map. now apply concat_length. }
  eexists _, _. split; [exact Hm|]. split; [apply lookup_transactions|].
  unfold BuildDb.working_set. rewrite Hl.
  split; [|split; [exact Hlen|]].
  - rewrite <- (Forall2_length_eq _ _ _ Hk). exact Hlen.
  - apply (Forall2_map_eq _ _ _ _ _ Hk). now intros x y [H _].
Qed.

(** C2. When the input directory holds no CSV file, or some file's columns
    after shape repair are not the canonical header, the run raises and
    the store is left as it was: none of the three tables is written, even
    when the other files are well formed. *)
Theorem C2_all_or_nothing (csv_files : list (csv_file num))
  (db : gmap string (table num)) :
  csv_files = [] \/ List.Exists shape_rejected csv_files ->
  exists e, main csv_files db = (inl e, db).
Proof.
  intros [-> | Hex].
  - eexists. reflexivity.
  - destruct (load_all_rejected csv_files []) as [e He].
    { eapply List.Exists_impl; [|exact Hex].
      intros f. apply shape_rejected_error. }
    exists e. unfold BuildDb.main.
    destruct csv_files as [|f fs]; [inversion Hex|].
    cbn [length Nat.eqb]. rewrite He. reflexivity.
Qed.

(** C3. For every valid set of input files, the Accounts and Categories
    tables written by the run hold exactly the distinct trimmed
    account_name and category_name values of the working set, each once,
    in the order of first occurrence, with the ids 1, 2, ..., N. *)
Theorem C3_dimension_tables (csv_files : list (csv_file num))
  (db : gmap string (table num)) :
  csv_files <> [] -> forallb accepted csv_files = true ->
  exists db' accounts categories,
    main csv_files db = (inr tt, db')
    /\ db' !! "Accounts" = Some (Dim accounts)
    /\ db' !! "Categories" = Some (Dim categories)
    /\ enumerates (map account_name (working_set csv_files)) accounts
    /\ enumerates (map category_name (working_set csv_files)) categories.
Proof.
  intros Hne Hacc.
  destruct (load_all_accepted csv_files [] Hacc) as [df_list Hl].
  pose proof (main_success csv_files df_list db Hne Hl) as Hm. cbv zeta in Hm.
  eexists _, _, _. split; [exact Hm|].
  split; [apply lookup_accounts|]. split; [apply lookup_categories|].
  unfold BuildDb.working_set. rewrite Hl.
  split; apply dimension_enumerates.
Qed.

(** C4. In every snapshot written by a successful run, each row of the
    Transactions table carries an account_id that exactly one row of the
    Accounts table has, and a category_id that exactly one row of the
    Categories table has. *)
Theorem C4_referential_completeness (csv_files : list (csv_file num))
  (db db' : gmap string (table num)) :
  main csv_files db = (inr tt, db') ->
  exists accounts categories txs,
    db' !! "Accounts" = Some (Dim accounts)
    /\ db' !! "Categories" = Some (Dim categories)
    /\ db' !! "Transactions" = Some (Fact txs)
    /\ List.Forall (fun t =>
         length (resolve (tx_account_id t) accounts) = 1
         /\ length (resolve (tx_category_id t) categories) = 1) txs.
Proof.
  intros Hm. destruct (main_inv _ _ _ _ Hm) as [[e [He _]] | [Hne [df_list Hl]]];
    [discriminate|].
  pose proof (main_success csv_files df_list db Hne Hl) as Hm'.
  cbv zeta in Hm'. rewrite Hm' in Hm. injection Hm as <-.
  eexists _, _, _. split; [apply lookup_accounts|].
  split; [apply lookup_categories|]. split; [apply lookup_transactions|].
  pose proof (build_transactions_keyed (clean (concat df_list))) as Hk.
  cbv zeta in Hk. apply (Forall2_Forall_r _ _ _ _ Hk).
  intros r t [_ [Ha Hc]]. unfold resolve. split.
  - rewrite (filter_id_unique snd _ (account_name r, tx_account_id t));
      [reflexivity | apply dimension_ids_NoDup | exact Ha].
  - rewrite (filter_id_unique snd _ (category_name r, tx_category_id t));
      [reflexivity | apply dimension_ids_NoDup | exact Hc].
Qed.

(** C10 (as amended). After the cleaning, the account_name, category_name,
    type and description of every row of the working set are strings: the
    cell coerced with [astype(str)] and trimmed.  A NaN cell becomes the
    string nan and a None cell the string None.  In a successful run, a
    row whose account_name (category_name) cell is NaN gives a row named
    nan in the Accounts (Categories) table and a transaction keyed to it. *)
Theorem C10_nan_names (csv_files : list (csv_file num))
  (db : gmap string (table num)) df_list raw :
  csv_files <> [] -> load_all csv_files [] = inr df_list ->
  In raw (concat df_list) ->
  let r := clean_row (map (iloc 1) (concat df_list)) raw in
  In r (working_set csv_files)
  /\ account_name r = Py.strip (astype_str str_num (iloc 2 raw))
  /\ category_name r = Py.strip (astype_str str_num (iloc 3 raw))
  /\ type r = Py.strip (astype_str str_num (iloc 4 raw))
  /\ description r = Py.strip (astype_str str_num (iloc 6 raw))
  /\ Py.strip (astype_str str_num CNaN) = "nan"%string
  /\ Py.strip (astype_str str_num CNone) = "None"%string
  /\ exists db' accounts categories txs,
       main csv_files db = (inr tt, db')
       /\ db' !! "Accounts" = Some (Dim accounts)
       /\ db' !! "Categories" = Some (Dim categories)
       /\ db' !! "Transactions" = Some (Fact txs)
       /\ (iloc 2 raw = CNaN ->
           exists k t, In ("nan"%string, k) accounts /\ In t txs
                       /\ tx_fields t = row_fields r /\ tx_account_id t = k)
       /\ (iloc 3 raw = CNaN ->
           exists k t, In ("nan"%string, k) categories /\ In t txs
                       /\ tx_fields t = row_fields r /\ tx_category_id t = k).
Proof.
  intros Hne Hl Hraw r.
  assert (Hr : In r (clean (concat df_list))).
  { unfold BuildDb.clean. now apply in_map. }
  split. { unfold BuildDb.working_set. now rewrite Hl. }
  do 6 (split; [reflexivity|]).
  pose proof (main_success csv_files df_list db Hne Hl) as Hm. cbv zeta in Hm.
  pose proof (build_transactions_keyed (clean (concat df_list))) as Hk.
  cbv zeta in Hk.
  destruct (Forall2_In_l _ _ _ _ Hk Hr) as [t [Ht [Hf [Ha Hc]]]].
  eexists _, _, _, _. split; [exact Hm|].
  split; [apply lookup_accounts|]. split; [apply lookup_categories|].
  split; [apply lookup_transactions|]. split; intros E.
  - exists (tx_account_id t), t. repeat split; try assumption.
    replace "nan"%string with (account_name r); [assumption|].
    subst r. cbn [account_name BuildDb.clean_row]. now rewrite E.
  - exists (tx_category_id t), t. repeat split; try assumption.
    replace "nan"%string with (category_name r); [assumption|].
    subst r. cbn [category_name BuildDb.clean_row]. now rewrite E.
Qed.

End Ingestion.

(** ** The shape repair *)

Section Repair.

Context {num : Type}.

(** The sample line of the specification splits into the seven fields. *)
Lemma collapsed_row_split :
  Py.split "," "3,2024-01-15,Checking,Dining,expense,22.50,lunch"
  = [ "3"; "2024-01-15"; "Checking"; "Dining"; "expense"; "22.50";
      "lunch" ]%string.
Proof. reflexivity. Qed.

(** A frame of one text column whose widest line has seven fields is
    split on the comma and given the canonical header. *)
Lemma load_file_collapsed (file : csv_file num) :
  let col := map (iloc 0) (rows (read_csv file)) in
  length (columns (read_csv file)) = 1 ->
  str_accessor_ok col = true ->
  expand_width (map str_split col) = 7 ->
  load_file file
  = inr (mkFrame EXPECTED_COLUMNS (map (expand_row 7) (map str_split col))).
Proof.
  intros col H1 Hs Hw. unfold load_file, repaired, shape_repair.
  rewrite H1. cbn [Nat.eqb]. fold col. rewrite Hs, Hw. reflexivity.
Qed.

(** A frame read with a column count other than one whose labels are not
    the canonical header is refused with an error that names the file. *)
Lemma load_file_column_mismatch (file : csv_file num) :
  length (columns (read_csv file)) <> 1 ->
  columns (read_csv file) <> EXPECTED_COLUMNS ->
  load_file file
  = inl (ValueError (String.append "Column mismatch in " (name file))).
Proof.
  intros H1 Hc. unfold load_file, repaired.
  apply Nat.eqb_neq in H1. rewrite H1.
  destruct (decide _) as [E | _]; [contradiction | reflexivity].
Qed.

(** A frame of one text column whose widest line has another number of
    fields makes the header assignment raise. *)
Lemma load_file_wrong_width (file : csv_file num) :
  let col := map (iloc 0) (rows (read_csv file)) in
  length (columns (read_csv file)) = 1 ->
  str_accessor_ok col = true ->
  expand_width (map str_split col) <> 7 ->
  load_file file
  = inl (ValueError
      (String.append "Length mismatch: Expected axis has "
        (String.append (Py.str_nat (expand_width (map str_split col)))
           " elements, new values have 7 elements"))).
Proof.
  intros col H1 Hs Hw. unfold load_file, repaired, shape_repair.
  rewrite H1. cbn [Nat.eqb]. fold col. rewrite Hs.
  apply Nat.eqb_neq in Hw. cbn [length EXPECTED_COLUMNS]. now rewrite Hw.
Qed.

End Repair.

End BuildDbSpec.

(* ===================================================================== *)
(** * Properties of app.py *)
(* ===================================================================== *)

Module AppSpec.
Import Pd App PyFacts PdFacts.

Section Reporting.

Context {num : Type}.
Variable nsum : list num -> num.
Variable nsub : num -> num -> num.
Variable csv_cell : cell num -> string.
Variable csv_date : list (option timestamp) -> option timestamp -> string.
Variable csv_num : option num -> string.

Local Abbreviation summary := (App.summary nsum nsub).
Local Abbreviation total := (App.total nsum).
Local Abbreviation to_csv := (App.to_csv csv_cell csv_date csv_num).
Local Abbreviation session :=
  (App.session nsum nsub csv_cell csv_date csv_num).

(** ** Membership stages *)

(** Selecting every value that a column holds keeps every row. *)
Lemma isin_options {A} (key : A -> string) (l : list A) :
  let options := Py.sorted (drop_duplicates (map key l)) in
  match options with
  | [] => l
  | _ => List.filter (fun r => Py.isin options (key r)) l
  end = l.
Proof.
  intros options.
  assert (H : forall r, In r l -> Py.isin options (key r) = true).
  { intros r Hr. apply isin_In. apply sorted_In. apply drop_duplicates_In.
    now apply in_map. }
  destruct options; [reflexivity | now apply filter_all].
Qed.

Lemma filter_incl {A} (p : A -> bool) l : incl (List.filter p l) l.
Proof. intros x Hx. now apply filter_In in Hx. Qed.

Lemma month_filter_incl sel (l : list (view_row num)) :
  incl (month_filter sel l) l.
Proof. destruct sel; [apply incl_refl | apply filter_incl]. Qed.

Lemma category_filter_incl sel (l : list (view_row num)) :
  incl (category_filter sel l) l.
Proof. destruct sel; [apply incl_refl | apply filter_incl]. Qed.

Lemma account_filter_incl sel (l : list (view_row num)) :
  incl (account_filter sel l) l.
Proof. destruct sel; [apply incl_refl | apply filter_incl]. Qed.

Lemma date_filter_has_date range (l : list (view_row num)) r :
  In r (date_filter range l) -> exists t, date (loaded r) = Some t.
Proof.
  unfold date_filter. rewrite filter_In. intros [_ H].
  destruct (date (loaded r)) as [t|]; [now exists t | discriminate].
Qed.

(** ** The stages on the prepared frame *)

Lemma filter_prepare (p : view_row num -> bool) (l : list (loaded_row num)) :
  List.filter p (prepare l)
  = prepare (List.filter (fun r => p (add_year_month (lower_type r))) l).
Proof.
  unfold prepare. rewrite !map_map.
  apply (filter_map_comm (fun r => add_year_month (lower_type r))).
Qed.

Lemma filter_true {A} (l : list A) : l = List.filter (fun _ => true) l.
Proof. symmetry. now apply filter_all. Qed.

Lemma month_filter_prepare sel :
  exists keep, forall l : list (loaded_row num),
    month_filter sel (prepare l) = prepare (List.filter keep l).
Proof.
  destruct sel as [|s sel]; eexists; intros l; simpl.
  - now rewrite <- filter_true.
  - apply filter_prepare.
Qed.

Lemma date_filter_prepare range :
  exists keep, forall l : list (loaded_row num),
    date_filter range (prepare l) = prepare (List.filter keep l).
Proof. eexists; intros l. apply filter_prepare. Qed.

Lemma category_filter_prepare sel :
  exists keep, forall l : list (loaded_row num),
    category_filter sel (prepare l) = prepare (List.filter keep l).
Proof.
  destruct sel as [|s sel]; eexists; intros l; simpl.
  - now rewrite <- filter_true.
  - apply filter_prepare.
Qed.

Lemma account_filter_prepare sel :
  exists keep, forall l : list (loaded_row num),
    account_filter sel (prepare l) = prepare (List.filter keep l).
Proof.
  destruct sel as [|s sel]; eexists; intros l; simpl.
  - now rewrite <- filter_true.
  - apply filter_prepare.
Qed.

Lemma pipeline_prepare (df : list (loaded_row num)) (c : controls) :
  exists keep, pipeline (prepare df) c = prepare (List.filter keep df).
Proof.
  unfold pipeline.
  destruct (month_filter_prepare (selected_months c)) as [k1 H1].
  destruct (date_filter_prepare (date_range c)) as [k2 H2].
  destruct (category_filter_prepare (selected_categories c)) as [k3 H3].
  destruct (account_filter_prepare (selected_accounts c)) as [k4 H4].
  rewrite H1, H2, H3, H4, !filter_filter. eexists. reflexivity.
Qed.

Lemma total_prepare kind (sel : list (loaded_row num)) :
  total kind (prepare sel)
  = nsum (dropna (map amount
      (List.filter (fun r => String.eqb (Py.lower (type r)) kind) sel))).
Proof.
  unfold App.total. rewrite filter_prepare. unfold prepare.
  rewrite !map_map. reflexivity.
Qed.

(** ** A run of the script *)

Lemma session_inv (df : list (loaded_row num)) (c : controls) filtered m csv :
  session df c = inr (filtered, m, csv) ->
  filtered = pipeline (prepare df) c
  /\ m = summary filtered /\ csv = to_csv filtered.
Proof.
  unfold App.session. destruct (default_range _); [discriminate|].
  intros H. injection H as <- <- <-. repeat split.
Qed.

Lemma prepare_dates (df : list (loaded_row num)) :
  map (fun r => date (loaded r)) (prepare df) = map date df.
Proof. unfold prepare. now rewrite !map_map. Qed.

Lemma ts_min_None l : ts_min l = None -> l = [].
Proof.
  destruct l as [|t l]; [reflexivity|]. unfold ts_min. simpl.
  match goal with |- context [match ?x with _ => _ end] => destruct x end;
    discriminate.
Qed.

Lemma ts_max_None l : ts_max l = None -> l = [].
Proof.
  destruct l as [|t l]; [reflexivity|]. unfold ts_max. simpl.
  match goal with |- context [match ?x with _ => _ end] => destruct x end;
    discriminate.
Qed.

Lemma dropna_In {A} (l : list (option A)) x : In (Some x) l -> In x (dropna l).
Proof.
  intros H. unfold dropna. apply in_flat_map. exists (Some x).
  split; [assumption | now left].
Qed.

Lemma dropna_all_None {A} (l : list (option A)) :
  (forall o, In o l -> o = None) -> dropna l = [].
Proof.
  induction l as [|o l IH]; simpl; intros H; [reflexivity|].
  rewrite (H o) by now left. simpl. apply IH. intros; apply H; now right.
Qed.

(** The script runs to its end as soon as one loaded row has a date. *)
Lemma session_runs (df : list (loaded_row num)) (c : controls) r t :
  In r df -> date r = Some t ->
  session df c
  = inr (pipeline (prepare df) c, summary (pipeline (prepare df) c),
         to_csv (pipeline (prepare df) c)).
Proof.
  intros Hr Ht. unfold App.session, default_range. rewrite prepare_dates.
  assert (Hin : In t (dropna (map date df))).
  { apply dropna_In. rewrite <- Ht. now apply in_map. }
  destruct (ts_min _) eqn:Emin;
    [|apply ts_min_None in Emin; now rewrite Emin in Hin].
  destruct (ts_max _) eqn:Emax;
    [|apply ts_max_None in Emax; now rewrite Emax in Hin].
  reflexivity.
Qed.

(** It raises when no loaded row has a date. *)
Lemma session_raises (df : list (loaded_row num)) (c : controls) :
  (forall r, In r df -> date r = None) ->
  session df c = inl (ValueError "NaTType does not support date").
Proof.
  intros H. unfold App.session, default_range. rewrite prepare_dates.
  rewrite dropna_all_None; [reflexivity|].
  intros o Ho. apply in_map_iff in Ho as [r [<- Hr]]. now apply H.
Qed.

(** ** The claims on reporting *)

(** C6 (as amended). For every filter selection the export holds a header
    record and then one record per row of the final filtered set, in
    order; every record has eight fields: the seven columns of the load
    query in their order (transaction_id, date, description, amount, type,
    account_name, category_name) followed by the derived year_month
    bucket. *)
Theorem C6_export (df : list (loaded_row num)) (c : controls) filtered m csv :
  session df c = inr (filtered, m, csv) ->
  filtered = pipeline (prepare df) c
  /\ length csv = S (length filtered)
  /\ hd [] csv = load_columns ++ ["year_month"%string]
  /\ map (firstn 7) (tl csv)
     = map (fun r =>
         [ csv_cell (transaction_id (loaded r));
           csv_date (map (fun r => date (loaded r)) filtered)
             (date (loaded r));
           description (loaded r);
           csv_num (amount (loaded r));
           type (loaded r);
           account_name (loaded r);
           category_name (loaded r) ]) filtered
  /\ map (fun record => nth 7 record ""%string) (tl csv)
     = map year_month filtered
  /\ List.Forall (fun record => length record = 8) csv.
Proof.
  intros H. apply session_inv in H as [Hf [_ ->]]. split; [exact Hf|].
  clear Hf. unfold App.to_csv. cbn [length hd tl].
  rewrite length_map, !map_map. repeat split.
  constructor; [reflexivity|].
  rewrite List.Forall_forall. intros record Hr.
  apply in_map_iff in Hr as [r [<- _]]. reflexivity.
Qed.

(** C7. In each membership stage (months, categories, accounts) an empty
    selection returns the stage's input unchanged, and so does the
    selection of the stage's whole option list. *)
Theorem C7_select_all (df filtered : list (view_row num)) :
  month_filter [] filtered = filtered
  /\ month_filter (available_months df) df = df
  /\ category_filter [] filtered = filtered
  /\ category_filter (category_options filtered) filtered = filtered
  /\ account_filter [] filtered = filtered
  /\ account_filter (account_options filtered) filtered = filtered.
Proof.
  repeat split.
  - apply (isin_options year_month df).
  - apply (isin_options (fun r => category_name (loaded r)) filtered).
  - apply (isin_options (fun r => account_name (loaded r)) filtered).
Qed.

(** C8. For every filter selection the final filtered set is the prepared
    form of a selection of the loaded rows; total income is the sum of the
    amounts of the selected rows whose type, lowercased, is income; total
    expenses the same for expense; and net is income minus expenses. *)
Theorem C8_metrics (df : list (loaded_row num)) (c : controls) filtered m csv :
  session df c = inr (filtered, m, csv) ->
  exists keep,
    let sel := List.filter keep df in
    filtered = prepare sel
    /\ income m
       = nsum (dropna (map amount
           (List.filter
              (fun r => String.eqb (Py.lower (type r)) "income") sel)))
    /\ expenses m
       = nsum (dropna (map amount
           (List.filter
              (fun r => String.eqb (Py.lower (type r)) "expense") sel)))
    /\ net m = nsub (income m) (expenses m).
Proof.
  intros H. apply session_inv in H as [-> [-> _]].
  destruct (pipeline_prepare df c) as [keep Hk]. exists keep.
  cbv zeta. rewrite Hk. unfold App.summary. cbn [income expenses net].
  rewrite !total_prepare. repeat split.
Qed.

(** C9. For every filter selection, every row of the final filtered set
    has a date: a transaction whose date is null never passes the date
    stage, whatever range is chosen, and the metrics and the export of the
    session are computed from that filtered set alone. *)
Theorem C9_null_dates_excluded (df : list (loaded_row num)) (c : controls)
  filtered m csv :
  session df c = inr (filtered, m, csv) ->
  List.Forall (fun r => exists t, date (loaded r) = Some t) filtered
  /\ m = summary filtered
  /\ csv = to_csv filtered.
Proof.
  intros H. apply session_inv in H as [-> [-> ->]].
  repeat split. unfold pipeline. rewrite List.Forall_forall. intros r Hr.
  apply account_filter_incl, category_filter_incl in Hr.
  now apply date_filter_has_date in Hr.
Qed.

End Reporting.

End AppSpec.

(* ===================================================================== *)
(** * The properties on the sample inputs *)
(* ===================================================================== *)

Module Samples.
Import Pd BuildDb Example.

Local Abbreviation working_set :=
  (BuildDb.working_set str_num to_datetime to_numeric).
Local Abbreviation clean_row :=
  (BuildDb.clean_row str_num to_datetime to_numeric).

Lemma sample_files_accepted : forallb accepted sample_files = true.
Proof. vm_compute. reflexivity. Qed.

Lemma six_csv_rejected : shape_rejected six_csv.
Proof.
  intros temp H. vm_compute in H. injection H as <-. discriminate.
Qed.

(** C1 on Jan.csv, Feb.csv and the collapsed Mar.csv: five rows in, five
    transactions out. *)
Lemma C1_row_count_witness :
  sample_files <> [] /\ forallb accepted sample_files = true
  /\ exists db' txs,
       main sample_files ∅ = (inr tt, db')
       /\ db' !! "Transactions" = Some (Fact txs)
       /\ length txs = input_rows sample_files
       /\ length (working_set sample_files) = input_rows sample_files
       /\ map tx_fields txs = map row_fields (working_set sample_files).
Proof.
  split; [discriminate|]. split; [exact sample_files_accepted|].
  apply (BuildDbSpec.C1_row_count str_num to_datetime to_numeric);
    [discriminate | exact sample_files_accepted].
Defined.

(** C2 on a batch whose second file has six columns. *)
Lemma C2_all_or_nothing_witness :
  (broken_batch = [] \/ List.Exists shape_rejected broken_batch)
  /\ exists e, main broken_batch ∅ = (inl e, ∅).
Proof.
  assert (H : broken_batch = [] \/ List.Exists shape_rejected broken_batch).
  { right. apply List.Exists_cons_tl, List.Exists_cons_hd.
    exact six_csv_rejected. }
  split; [exact H|].
  exact (BuildDbSpec.C2_all_or_nothing str_num to_datetime to_numeric
           broken_batch ∅ H).
Defined.

(** C3 on the three sample files. *)
Lemma C3_dimension_tables_witness :
  sample_files <> [] /\ forallb accepted sample_files = true
  /\ exists db' accounts categories,
       main sample_files ∅ = (inr tt, db')
       /\ db' !! "Accounts" = Some (Dim accounts)
       /\ db' !! "Categories" = Some (Dim categories)
       /\ enumerates (map account_name (working_set sample_files)) accounts
       /\ enumerates (map category_name (working_set sample_files))
            categories.
Proof.
  split; [discriminate|]. split; [exact sample_files_accepted|].
  apply (BuildDbSpec.C3_dimension_tables str_num to_datetime to_numeric);
    [discriminate | exact sample_files_accepted].
Defined.

Lemma sample_run :
  main sample_files ∅ = (inr tt, snd (main sample_files ∅)).
Proof.
  rewrite (surjective_pairing (main sample_files ∅)) at 1.
  f_equal; vm_compute; reflexivity.
Qed.

(** C4 on the snapshot written for the three sample files. *)
Lemma C4_referential_completeness_witness :
  main sample_files ∅ = (inr tt, snd (main sample_files ∅))
  /\ exists accounts categories txs,
       snd (main sample_files ∅) !! "Accounts" = Some (Dim accounts)
       /\ snd (main sample_files ∅) !! "Categories" = Some (Dim categories)
       /\ snd (main sample_files ∅) !! "Transactions" = Some (Fact txs)
       /\ List.Forall (fun t =>
            length (resolve (tx_account_id t) accounts) = 1
            /\ length (resolve (tx_category_id t) categories) = 1) txs.
Proof.
  split; [exact sample_run|].
  exact (BuildDbSpec.C4_referential_completeness str_num to_datetime
           to_numeric sample_files ∅ _ sample_run).
Defined.

Lemma two_months_loaded :
  load_all two_months [] = inr [read_csv jan_csv; read_csv feb_csv].
Proof. vm_compute. reflexivity. Qed.

(** C10 on Jan.csv and Feb.csv: the row of Feb.csv whose account_name is
    NaN gives the account named nan and a transaction keyed to it. *)
Lemma C10_nan_names_witness :
  two_months <> []
  /\ load_all two_months [] = inr [read_csv jan_csv; read_csv feb_csv]
  /\ In nan_row (concat [read_csv jan_csv; read_csv feb_csv])
  /\ exists db' accounts categories txs,
       main two_months ∅ = (inr tt, db')
       /\ db' !! "Accounts" = Some (Dim accounts)
       /\ db' !! "Categories" = Some (Dim categories)
       /\ db' !! "Transactions" = Some (Fact txs)
       /\ (iloc 2 nan_row = CNaN ->
           exists k t, In ("nan"%string, k) accounts /\ In t txs
             /\ tx_fields t
                = row_fields (clean_row
                    (map (iloc 1) (concat [read_csv jan_csv; read_csv feb_csv]))
                    nan_row)
             /\ tx_account_id t = k)
       /\ (iloc 3 nan_row = CNaN ->
           exists k t, In ("nan"%string, k) categories /\ In t txs
             /\ tx_fields t
                = row_fields (clean_row
                    (map (iloc 1) (concat [read_csv jan_csv; read_csv feb_csv]))
                    nan_row)
             /\ tx_category_id t = k).
Proof.
  assert (H1 : two_months <> []) by discriminate.
  assert (H3 : In nan_row (concat [read_csv jan_csv; read_csv feb_csv])).
  { simpl. right. right. right. left. reflexivity. }
  split; [exact H1|]. split; [exact two_months_loaded|]. split; [exact H3|].
  pose proof (BuildDbSpec.C10_nan_names str_num to_datetime to_numeric
                two_months ∅ _ nan_row H1 two_months_loaded H3) as H.
  cbv zeta in H. do 7 apply proj2 in H. exact H.
Defined.

(** C10 as first stated fails on Short.csv: the account_name cell of the
    short line is missing (None) and is cleaned to the string None, so the
    Accounts table gets a row named None and no row named nan. *)
Lemma C10_counterexample :
  exists df_list,
    load_all short_batch [] = inr df_list
    /\ ~ (forall raw, In raw (concat df_list) -> isna (iloc 2 raw) = true ->
            Py.strip (astype_str str_num (iloc 2 raw)) = "nan"%string)
    /\ snd (main short_batch ∅) !! "Accounts"
       = Some (Dim [("Checking"%string, 1); ("None"%string, 2)]).
Proof.
  eexists. split; [vm_compute; reflexivity|]. split.
  - intros H. specialize (H short_row).
    assert (E : Py.strip (astype_str str_num (iloc 2 short_row))
                = "nan"%string).
    { apply H; [|reflexivity]. simpl. do 3 right. left. reflexivity. }
    vm_compute in E. discriminate.
  - vm_compute. reflexivity.
Qed.

(** In a collapsed export an empty account_name field is the empty string,
    not a missing cell: the account is named by the empty string. *)
Lemma blank_field_account :
  snd (main [blank_csv] ∅) !! "Accounts" = Some (Dim [(""%string, 1)]).
Proof. vm_compute. reflexivity. Qed.

(** C5 at Narrow.csv, a file read as one text column whose lines hold two
    fields: the header assignment of the repair raises pandas' length
    error, which does not name the file, and the run stops on it with
    nothing written; the file never reaches the check that raises the
    column mismatch error naming it. *)
Theorem C5_wrong_width_error :
  length (columns (read_csv narrow_csv)) = 1
  /\ str_accessor_ok (map (iloc 0) (rows (read_csv narrow_csv))) = true
  /\ load_file narrow_csv
     = inl (ValueError
         "Length mismatch: Expected axis has 2 elements, new values have 7 elements")
  /\ load_file narrow_csv
     <> inl (ValueError (String.append "Column mismatch in " (name narrow_csv)))
  /\ main narrow_batch ∅
     = (inl (ValueError
         "Length mismatch: Expected axis has 2 elements, new values have 7 elements"),
        ∅).
Proof.
  split; [reflexivity|]. split; [reflexivity|].
  split; [vm_compute; reflexivity|]. split.
  - vm_compute. discriminate.
  - vm_compute. reflexivity.
Qed.

(** The sibling path: Six.csv, read with six columns, is refused with the
    error that names it. *)
Lemma six_csv_named :
  load_file six_csv = inl (ValueError "Column mismatch in Six.csv").
Proof. vm_compute. reflexivity. Qed.

(** The collapsed Mar.csv is accepted as one row of seven fields. *)
Lemma mar_csv_repaired :
  load_file mar_csv
  = inr (mkFrame EXPECTED_COLUMNS
      [ text_row [ "3"; "2024-01-15"; "Checking"; "Dining"; "expense";
                   "22.50"; "lunch" ]%string ]).
Proof. vm_compute. reflexivity. Qed.

Lemma sample_session :
  session loaded january
  = inr (App.pipeline (App.prepare loaded) january,
         App.summary nsum nsub (App.pipeline (App.prepare loaded) january),
         App.to_csv csv_cell csv_date csv_num
           (App.pipeline (App.prepare loaded) january)).
Proof. vm_compute. reflexivity. Qed.

(** C6 as first stated fails on the sample frame: the header of the export
    is not the column list of the load query, it also holds year_month. *)
Lemma C6_counterexample :
  exists filtered m csv,
    session loaded january = inr (filtered, m, csv)
    /\ hd [] csv <> App.load_columns
    /\ In "year_month"%string (hd [] csv).
Proof.
  eexists _, _, _. split; [exact sample_session|]. split.
  - vm_compute. discriminate.
  - vm_compute. do 7 right. left. reflexivity.
Qed.

(** C6 (as amended) on the sample frame with the month selector on
    January. *)
Lemma C6_export_witness :
  session loaded january
  = inr (App.pipeline (App.prepare loaded) january,
         App.summary nsum nsub (App.pipeline (App.prepare loaded) january),
         App.to_csv csv_cell csv_date csv_num
           (App.pipeline (App.prepare loaded) january))
  /\ length (App.to_csv csv_cell csv_date csv_num
               (App.pipeline (App.prepare loaded) january))
     = S (length (App.pipeline (App.prepare loaded) january))
  /\ hd [] (App.to_csv csv_cell csv_date csv_num
              (App.pipeline (App.prepare loaded) january))
     = App.load_columns ++ ["year_month"%string].
Proof.
  split; [exact sample_session|].
  pose proof (AppSpec.C6_export nsum nsub csv_cell csv_date csv_num
                loaded january _ _ _ sample_session) as H.
  split; [exact (proj1 (proj2 H)) | exact (proj1 (proj2 (proj2 H)))].
Defined.

(** C8 on the sample frame: the second row, typed Income, counts as
    income. *)
Lemma C8_metrics_witness :
  session loaded january
  = inr (App.pipeline (App.prepare loaded) january,
         App.summary nsum nsub (App.pipeline (App.prepare loaded) january),
         App.to_csv csv_cell csv_date csv_num
           (App.pipeline (App.prepare loaded) january))
  /\ exists keep,
       let sel := List.filter keep loaded in
       let m := App.summary nsum nsub
                  (App.pipeline (App.prepare loaded) january) in
       App.pipeline (App.prepare loaded) january = App.prepare sel
       /\ App.income m
          = nsum (dropna (map App.amount
              (List.filter
                 (fun r => String.eqb (Py.lower (App.type r)) "income") sel)))
       /\ App.expenses m
          = nsum (dropna (map App.amount
              (List.filter
                 (fun r => String.eqb (Py.lower (App.type r)) "expense") sel)))
       /\ App.net m = nsub (App.income m) (App.expenses m).
Proof.
  split; [exact sample_session|].
  exact (AppSpec.C8_metrics nsum nsub csv_cell csv_date csv_num
           loaded january _ _ _ sample_session).
Defined.

(** C9 on the sample frame, whose fourth row has no date. *)
Lemma C9_null_dates_excluded_witness :
  session loaded january
  = inr (App.pipeline (App.prepare loaded) january,
         App.summary nsum nsub (App.pipeline (App.prepare loaded) january),
         App.to_csv csv_cell csv_date csv_num
           (App.pipeline (App.prepare loaded) january))
  /\ List.Forall (fun r => exists t, App.date (App.loaded r) = Some t)
       (App.pipeline (App.prepare loaded) january).
Proof.
  split; [exact sample_session|].
  exact (proj1 (AppSpec.C9_null_dates_excluded nsum nsub csv_cell csv_date
                  csv_num loaded january _ _ _ sample_session)).
Defined.

(** The example of the specification: with the month selector on January,
    income is 2000.00, expenses 50.00 and net 1950.00 (in hundredths), and
    the row without a date is not in the filtered set. *)
Lemma january_metrics :
  exists filtered csv,
    session loaded january
    = inr (filtered, App.mkMetrics 200000%Z 5000%Z 195000%Z, csv)
    /\ length filtered = 2.
Proof. eexists _, _. split; [vm_compute; reflexivity | reflexivity]. Qed.

(** With every control left at its default the row without a date is
    dropped by the date stage: three of the four rows remain. *)
Lemma default_controls_drop_null_date :
  App.default_range (App.prepare loaded)
  = inr (mkDate 2024 1 5, mkDate 2024 2 3)
  /\ App.available_months (App.prepare loaded)
     = [ "2024-01"; "2024-02"; "NaT" ]%string
  /\ length (App.pipeline (App.prepare loaded)
       (App.default_controls (App.prepare loaded)
          (mkDate 2024 1 5, mkDate 2024 2 3))) = 3.
Proof. vm_compute. repeat split. Qed.

End Samples.

(* ===================================================================== *)
(** * Properties of the string primitives *)
(* ===================================================================== *)

Module TextFacts.
Import Py Text.

Local Open Scope string_scope.

(** ** Reversal *)

Lemma append_cons c a b : String c a ++ b = String c (a ++ b).
Proof. reflexivity. Qed.

Lemma append_nil_l a : "" ++ a = a.
Proof. reflexivity. Qed.

Lemma append_nil_r a : a ++ "" = a.
Proof.
  induction a as [|x a IH]; [reflexivity | now rewrite append_cons, IH].
Qed.

Lemma append_assoc a b c : (a ++ b) ++ c = a ++ (b ++ c).
Proof.
  induction a as [|x a IH]; [reflexivity | now rewrite !append_cons, IH].
Qed.

Lemma rev_string_app a b : forall acc,
  rev_string acc (a ++ b) = rev_string (rev_string acc a) b.
Proof.
  induction a as [|c a IH]; intros acc; [reflexivity|].
  rewrite append_cons. simpl. apply IH.
Qed.

Lemma rev_string_acc s : forall acc,
  rev_string acc s = rev_string "" s ++ acc.
Proof.
  induction s as [|c s IH]; simpl; intros acc; [reflexivity|].
  rewrite (IH (String c acc)), (IH (String c "")).
  rewrite append_assoc. reflexivity.
Qed.

Lemma rev_string_rev s : forall a a',
  rev_string a' (rev_string a s) = rev_string (s ++ a') a.
Proof.
  induction s as [|c s IH]; simpl; intros a a'; [reflexivity|].
  rewrite IH, append_cons. reflexivity.
Qed.

Lemma rev_string_involutive s : rev_string "" (rev_string "" s) = s.
Proof.
  rewrite rev_string_rev. simpl. apply append_nil_r.
Qed.

Lemma all_space_app a b : all_space (a ++ b) = all_space a && all_space b.
Proof.
  induction a as [|c a IH]; [reflexivity|].
  rewrite append_cons. simpl. now rewrite IH, andb_assoc.
Qed.

Lemma all_space_rev s : forall acc,
  all_space (rev_string acc s) = all_space s && all_space acc.
Proof.
  induction s as [|c s IH]; simpl; intros acc; [reflexivity|].
  rewrite IH. simpl. destruct (isspace c), (all_space s); reflexivity.
Qed.

Lemma last_char_None s : last_char s = None -> s = "".
Proof.
  induction s as [|c s IH]; simpl; [reflexivity|].
  destruct s; [discriminate|]. intros H. now specialize (IH H).
Qed.

Lemma first_char_rev s : forall acc,
  first_char (rev_string acc s)
  = match last_char s with Some c => Some c | None => first_char acc end.
Proof.
  induction s as [|c s IH]; intros acc; [reflexivity|].
  cbn [rev_string]. rewrite IH. cbn [last_char].
  destruct s as [|d s]; [reflexivity|].
  destruct (last_char (String d s)) eqn:E; [reflexivity|].
  now apply last_char_None in E.
Qed.

Lemma last_char_rev s : last_char (rev_string "" s) = first_char s.
Proof.
  rewrite <- (rev_string_involutive s) at 2.
  rewrite first_char_rev. now destruct (last_char _).
Qed.

(** ** [lstrip] and [rstrip] *)

Lemma lstrip_split s :
  exists ws, s = ws ++ lstrip s /\ all_space ws = true.
Proof.
  induction s as [|c s [ws [E Hws]]]; simpl; [now exists ""|].
  destruct (isspace c) eqn:Ec.
  - exists (String c ws). rewrite append_cons. simpl. rewrite Ec, Hws.
    split; [now f_equal | reflexivity].
  - now exists "".
Qed.

Lemma lstrip_first s : not_space (first_char (lstrip s)) = true.
Proof.
  induction s as [|c s IH]; simpl; [reflexivity|].
  destruct (isspace c) eqn:Ec; [assumption | simpl; now rewrite Ec].
Qed.

Lemma lstrip_id s : not_space (first_char s) = true -> lstrip s = s.
Proof.
  destruct s as [|c s]; simpl; [reflexivity|].
  now destruct (isspace c).
Qed.

Lemma rstrip_split s :
  exists ws, s = rstrip s ++ ws /\ all_space ws = true.
Proof.
  unfold rstrip.
  destruct (lstrip_split (rev_string "" s)) as [ws [E Hws]].
  exists (rev_string "" ws). split.
  - rewrite <- (rev_string_involutive s) at 1. rewrite E at 1.
    rewrite rev_string_app. apply rev_string_acc.
  - rewrite all_space_rev, Hws. reflexivity.
Qed.

Lemma rstrip_last s : not_space (last_char (rstrip s)) = true.
Proof. unfold rstrip. rewrite last_char_rev. apply lstrip_first. Qed.

Lemma rstrip_id s : not_space (last_char s) = true -> rstrip s = s.
Proof.
  intros H. unfold rstrip. rewrite lstrip_id; [apply rev_string_involutive|].
  rewrite first_char_rev. destruct (last_char s); [assumption|reflexivity].
Qed.

Lemma rstrip_first s :
  not_space (first_char s) = true -> not_space (first_char (rstrip s)) = true.
Proof.
  intros H. destruct (rstrip_split s) as [ws [E _]].
  destruct (rstrip s) as [|c r]; [reflexivity|].
  rewrite E in H. exact H.
Qed.

(** ** [split] *)

Lemma split_length sep s :
  length (split sep s) = S (count_char sep s).
Proof.
  induction s as [|c s IH]; simpl; [reflexivity|].
  destruct (Ascii.eqb c sep); simpl; [now rewrite IH|].
  destruct (split sep s); simpl in *; congruence.
Qed.

Lemma split_concat sep s :
  String.concat (String sep "") (split sep s) = s.
Proof.
  induction s as [|c s IH]; simpl; [reflexivity|].
  pose proof (PyFacts.split_nonempty sep s) as Hne.
  destruct (split sep s) as [|w ws]; [contradiction|].
  destruct (Ascii.eqb c sep) eqn:E.
  - apply Ascii.eqb_eq in E. subst c.
    change (String.concat (String sep "") ("" :: w :: ws))
      with ("" ++ String sep "" ++ String.concat (String sep "") (w :: ws)).
    now rewrite IH.
  - destruct ws as [|w' ws]; cbn [String.concat] in *; [now rewrite IH|].
    rewrite append_cons. now rewrite IH.
Qed.

Lemma strip_trimmed s : trimmed (strip s) = true.
Proof.
  unfold trimmed, strip. rewrite rstrip_last, andb_true_r.
  apply rstrip_first, lstrip_first.
Qed.

(** ** What [strip] and [split] guarantee *)

(** [strip] removes white space at the two ends and nothing else; its
    result neither starts nor ends with white space; stripping twice is
    stripping once. *)
Theorem strip_trims s :
  (exists l r, s = l ++ strip s ++ r
               /\ all_space l = true /\ all_space r = true)
  /\ trimmed (strip s) = true
  /\ strip (strip s) = strip s.
Proof.
  pose proof (strip_trimmed s) as Ht.
  split; [|split; [exact Ht|]].
  - destruct (lstrip_split s) as [l [El Hl]].
    destruct (rstrip_split (lstrip s)) as [r [Er Hr]].
    exists l, r. unfold strip. now rewrite <- Er, <- El.
  - apply andb_prop in Ht as [H1 H2]. unfold strip at 1.
    rewrite (lstrip_id _ H1). now apply rstrip_id.
Qed.

(** A string without white space at its ends is left as it is. *)
Theorem strip_trimmed_id s : trimmed s = true -> strip s = s.
Proof.
  intros H. apply andb_prop in H as [H1 H2]. unfold strip.
  rewrite (lstrip_id _ H1). now apply rstrip_id.
Qed.

(** Splitting loses nothing: the fields joined with the separator give the
    string back, and there is one field more than there are separators. *)
Theorem split_join sep s :
  String.concat (String sep "") (split sep s) = s
  /\ length (split sep s) = S (count_char sep s).
Proof. split; [apply split_concat | apply split_length]. Qed.

End TextFacts.

(* ===================================================================== *)
(** * Further properties of build_db.py *)
(* ===================================================================== *)

Module IngestionFacts.
Import Pd BuildDb PyFacts PdFacts BuildDbSpec Text TextFacts.

Section Run.

Context {num : Type}.
Variable str_num : num -> string.
Variable to_datetime : list (cell num) -> cell num -> option timestamp.
Variable to_numeric : cell num -> option num.

Local Abbreviation main := (BuildDb.main str_num to_datetime to_numeric).
Local Abbreviation working_set :=
  (BuildDb.working_set str_num to_datetime to_numeric).
Local Abbreviation clean := (BuildDb.clean str_num to_datetime to_numeric).

(** ** The store *)

(** What a run leaves in the store: the store as it was, or the three
    tables replaced. *)
Lemma main_store (csv_files : list (csv_file num))
  (db : gmap string (table num)) r db' :
  main csv_files db = (r, db') ->
  db' = db
  \/ exists a c t,
       r = inr tt
       /\ db' = <["Transactions" := t]>
                  (<["Categories" := c]> (<["Accounts" := a]> db)).
Proof.
  intros H. destruct (main_inv _ _ _ _ _ _ _ H) as [[e [_ ->]] | [Hne [l Hl]]];
    [now left|].
  right. pose proof (main_success str_num to_datetime to_numeric
                       csv_files l db Hne Hl) as Hm.
  cbv zeta in Hm. rewrite Hm in H. injection H as <- <-. eauto.
Qed.

Lemma replaced_twice (db : gmap string (table num)) a c t a' c' t' :
  <["Transactions" := t']> (<["Categories" := c']> (<["Accounts" := a']>
    (<["Transactions" := t]> (<["Categories" := c]> (<["Accounts" := a]> db)))))
  = <["Transactions" := t']> (<["Categories" := c']> (<["Accounts" := a']> db)).
Proof.
  apply map_eq. intros k.
  destruct (decide (k = "Transactions")) as [-> | Ht];
    [now rewrite !lookup_insert_eq|].
  rewrite (lookup_insert_ne _ "Transactions" k) by congruence.
  rewrite (lookup_insert_ne _ "Transactions" k) by congruence.
  destruct (decide (k = "Categories")) as [-> | Hc];
    [now rewrite !lookup_insert_eq|].
  rewrite (lookup_insert_ne _ "Categories" k) by congruence.
  rewrite (lookup_insert_ne _ "Categories" k) by congruence.
  destruct (decide (k = "Accounts")) as [-> | Ha];
    [now rewrite !lookup_insert_eq|].
  rewrite !lookup_insert_ne by congruence. reflexivity.
Qed.

(** A run touches no table of the store other than Accounts, Categories and
    Transactions, whether it succeeds or raises. *)
Theorem other_tables_kept (csv_files : list (csv_file num))
  (db : gmap string (table num)) r db' (table_name : string) :
  main csv_files db = (r, db') ->
  table_name <> "Accounts"%string -> table_name <> "Categories"%string ->
  table_name <> "Transactions"%string ->
  db' !! table_name = db !! table_name.
Proof.
  intros H Ha Hc Ht.
  destruct (main_store _ _ _ _ H) as [-> | [a [c [t [_ ->]]]]]; [reflexivity|].
  rewrite !lookup_insert_ne by congruence. reflexivity.
Qed.

(** The last build wins: a successful run over a store left by an earlier
    run, successful or not, gives the store it gives without that earlier
    run. *)
Theorem last_build_wins (earlier csv_files : list (csv_file num))
  (db : gmap string (table num)) r db1 db2 :
  main earlier db = (r, db1) ->
  main csv_files db1 = (inr tt, db2) ->
  main csv_files db = (inr tt, db2).
Proof.
  intros H1 H2.
  destruct (main_inv _ _ _ _ _ _ _ H2) as [[e [He _]] | [Hne [l Hl]]];
    [discriminate|].
  pose proof (main_success str_num to_datetime to_numeric
                csv_files l db Hne Hl) as Hm.
  pose proof (main_success str_num to_datetime to_numeric
                csv_files l db1 Hne Hl) as Hm1.
  cbv zeta in Hm, Hm1. rewrite Hm1 in H2. injection H2 as <-. rewrite Hm.
  destruct (main_store _ _ _ _ H1) as [-> | [a [c [t [_ ->]]]]];
    [reflexivity|].
  now rewrite replaced_twice.
Qed.

(** ** The errors of the loop *)

Lemma load_all_first_failure (pre post : list (csv_file num)) f e :
  forall acc,
  forallb accepted pre = true -> load_file f = inl e ->
  load_all (pre ++ f :: post) acc = inl e.
Proof.
  induction pre as [|p pre IH]; simpl; intros acc Hpre Hf.
  - now rewrite Hf.
  - apply andb_prop in Hpre as [Hp Hpre]. unfold accepted in Hp.
    destruct (load_file p); [discriminate | now apply IH].
Qed.

(** The first file that the loop body refuses decides the outcome: the run
    raises that file's error, whatever the files after it are, and writes
    nothing. *)
Theorem first_failure_decides (pre post : list (csv_file num)) f e
  (db : gmap string (table num)) :
  forallb accepted pre = true -> load_file f = inl e ->
  main (pre ++ f :: post) db = (inl e, db).
Proof.
  intros Hpre Hf. unfold BuildDb.main.
  rewrite (load_all_first_failure pre post f e [] Hpre Hf).
  destruct pre; reflexivity.
Qed.

Lemma load_file_error (f : csv_file num) e :
  load_file f = inl e -> forall msg, e <> FileNotFoundError msg.
Proof.
  unfold load_file, repaired, shape_repair.
  destruct (_ =? 1).
  - destruct (str_accessor_ok _); [|intros H; injection H as <-; discriminate].
    destruct (_ =? _); [|intros H; injection H as <-; discriminate].
    destruct (decide _); [discriminate|].
    intros H; injection H as <-; discriminate.
  - destruct (decide _); [discriminate|].
    intros H; injection H as <-; discriminate.
Qed.

Lemma load_all_error (csv_files : list (csv_file num)) e : forall acc,
  load_all csv_files acc = inl e -> forall msg, e <> FileNotFoundError msg.
Proof.
  induction csv_files as [|f fs IH]; simpl; intros acc H; [discriminate|].
  destruct (load_file f) as [e' | t] eqn:E.
  - injection H as <-. now apply (load_file_error f).
  - now apply (IH _ H).
Qed.


(** ** The surrogate keys *)

Lemma Forall2_nth_error {A B} (R : A -> B -> Prop) l1 l2 :
  List.Forall2 R l1 l2 -> forall i a b,
  nth_error l1 i = Some a -> nth_error l2 i = Some b -> R a b.
Proof.
  induction 1 as [|x y l1 l2 Hxy _ IH]; intros [|i] a b Ha Hb;
    try discriminate.
  - injection Ha as <-. injection Hb as <-. exact Hxy.
  - now apply (IH i).
Qed.

Lemma NoDup_fst_functional {A B} (l : list (A * B)) a x y :
  List.NoDup (map fst l) -> In (a, x) l -> In (a, y) l -> x = y.
Proof.
  induction l as [|[a' b'] l IH]; simpl; intros Hnd Hx Hy; [contradiction|].
  inversion Hnd as [|? ? Hn Hnd']; subst.
  destruct Hx as [Ex | Hx], Hy as [Ey | Hy].
  - congruence.
  - injection Ex as -> ->. exfalso. apply Hn.
    change a with (fst (a, y)). now apply in_map.
  - injection Ey as -> ->. exfalso. apply Hn.
    change a with (fst (a, x)). now apply in_map.
  - now apply IH.
Qed.

Lemma NoDup_snd_injective {A B} (l : list (A * B)) a b x :
  List.NoDup (map snd l) -> In (a, x) l -> In (b, x) l -> a = b.
Proof.
  induction l as [|[a' b'] l IH]; simpl; intros Hnd Ha Hb; [contradiction|].
  inversion Hnd as [|? ? Hn Hnd']; subst.
  destruct Ha as [Ea | Ha], Hb as [Eb | Hb].
  - congruence.
  - injection Ea as -> ->. exfalso. apply Hn.
    change x with (snd (b, x)). now apply in_map.
  - injection Eb as -> ->. exfalso. apply Hn.
    change x with (snd (a, x)). now apply in_map.
  - now apply IH.
Qed.

Lemma dimension_names_NoDup names : List.NoDup (map fst (dimension names)).
Proof. rewrite dimension_names. apply drop_duplicates_NoDup. Qed.

(** In a successful run, two transactions carry the same account_id exactly
    when their rows have the same trimmed account_name, and the same
    category_id exactly when they have the same trimmed category_name. *)
Theorem same_name_same_id (csv_files : list (csv_file num))
  (db db' : gmap string (table num)) txs i j r1 r2 t1 t2 :
  main csv_files db = (inr tt, db') ->
  db' !! "Transactions" = Some (Fact txs) ->
  nth_error (working_set csv_files) i = Some r1 ->
  nth_error txs i = Some t1 ->
  nth_error (working_set csv_files) j = Some r2 ->
  nth_error txs j = Some t2 ->
  (account_name r1 = account_name r2 <-> tx_account_id t1 = tx_account_id t2)
  /\ (category_name r1 = category_name r2
      <-> tx_category_id t1 = tx_category_id t2).
Proof.
  intros Hm Ht Hr1 Ht1 Hr2 Ht2.
  destruct (main_inv _ _ _ _ _ _ _ Hm) as [[e [He _]] | [Hne [l Hl]]];
    [discriminate|].
  pose proof (main_success str_num to_datetime to_numeric
                csv_files l db Hne Hl) as Hm'.
  cbv zeta in Hm'. rewrite Hm' in Hm. injection Hm as <-.
  rewrite lookup_transactions in Ht. injection Ht as <-.
  unfold BuildDb.working_set in Hr1, Hr2. rewrite Hl in Hr1, Hr2.
  pose proof (build_transactions_keyed (clean (concat l))) as Hk.
  cbv zeta in Hk.
  destruct (Forall2_nth_error _ _ _ Hk _ _ _ Hr1 Ht1) as [_ [Ha1 Hc1]].
  destruct (Forall2_nth_error _ _ _ Hk _ _ _ Hr2 Ht2) as [_ [Ha2 Hc2]].
  split; split; intros E.
  - rewrite E in Ha1.
    exact (NoDup_fst_functional _ _ _ _ (dimension_names_NoDup _) Ha1 Ha2).
  - rewrite E in Ha1.
    exact (NoDup_snd_injective _ _ _ _ (dimension_ids_NoDup _) Ha1 Ha2).
  - rewrite E in Hc1.
    exact (NoDup_fst_functional _ _ _ _ (dimension_names_NoDup _) Hc1 Hc2).
  - rewrite E in Hc1.
    exact (NoDup_snd_injective _ _ _ _ (dimension_ids_NoDup _) Hc1 Hc2).
Qed.

Lemma dimension_trimmed (cells : list (cell num)) :
  List.Forall (fun d => trimmed (fst d) = true)
    (dimension (map (fun c => Py.strip (astype_str str_num c)) cells)).
Proof.
  rewrite List.Forall_forall. intros d Hd.
  assert (H : In (fst d) (map fst (dimension
            (map (fun c => Py.strip (astype_str str_num c)) cells)))).
  { now apply in_map. }
  rewrite dimension_names, drop_duplicates_In in H.
  apply in_map_iff in H as [c [<- _]]. apply strip_trimmed.
Qed.

(** In a successful run no name of the Accounts or Categories table starts
    or ends with white space. *)
Theorem dimension_names_trimmed (csv_files : list (csv_file num))
  (db db' : gmap string (table num)) accounts categories :
  main csv_files db = (inr tt, db') ->
  db' !! "Accounts" = Some (Dim accounts) ->
  db' !! "Categories" = Some (Dim categories) ->
  List.Forall (fun d => trimmed (fst d) = true) accounts
  /\ List.Forall (fun d => trimmed (fst d) = true) categories.
Proof.
  intros Hm Ha Hc.
  destruct (main_inv _ _ _ _ _ _ _ Hm) as [[e [He _]] | [Hne [l Hl]]];
    [discriminate|].
  pose proof (main_success str_num to_datetime to_numeric
                csv_files l db Hne Hl) as Hm'.
  cbv zeta in Hm'. rewrite Hm' in Hm. injection Hm as <-.
  rewrite lookup_accounts in Ha. injection Ha as <-.
  rewrite lookup_categories in Hc. injection Hc as <-.
  unfold BuildDb.clean. rewrite !map_map. cbn [account_name category_name
    BuildDb.clean_row].
  split.
  - rewrite <- (map_map (iloc 2)
      (fun c => Py.strip (astype_str str_num c))).
    apply dimension_trimmed.
  - rewrite <- (map_map (iloc 3)
      (fun c => Py.strip (astype_str str_num c))).
    apply dimension_trimmed.
Qed.

End Run.

(** ** The shape repair *)

Section Shape.

Context {num : Type}.

Lemma list_max_ge (l : list nat) n : In n l -> n <= list_max l.
Proof.
  induction l as [|m l IH]; simpl; intros H; [contradiction|].
  destruct H as [-> | H]; [lia | specialize (IH H); lia].
Qed.

Lemma expand_row_length w (o : option (list (cell num))) :
  split_len o <= w -> length (expand_row w o) = w.
Proof.
  destruct o as [l|]; simpl; intros H.
  - rewrite length_app, repeat_length. lia.
  - apply repeat_length.
Qed.

(** A frame that the shape repair returns carries the canonical header and
    is rectangular: every row has seven cells, and there are as many rows
    as lines were read. *)
Theorem repaired_frame_rectangular (temp t : frame num) :
  shape_repair temp = inr t ->
  columns t = EXPECTED_COLUMNS
  /\ length (rows t) = length (rows temp)
  /\ List.Forall (fun r => length r = 7) (rows t).
Proof.
  intros H. destruct (shape_repair_rows _ _ H) as [Hc Hl].
  split; [exact Hc|]. split; [exact Hl|].
  unfold shape_repair in H. destruct (str_accessor_ok _); [|discriminate].
  destruct (_ =? _) eqn:E; [|discriminate].
  injection H as <-. cbn [rows]. apply Nat.eqb_eq in E.
  rewrite List.Forall_forall. intros r Hr.
  apply in_map_iff in Hr as [o [<- Ho]].
  rewrite expand_row_length; [exact E|].
  apply list_max_ge. now apply in_map.
Qed.

(** A file read as one column never gets the error that names it: it is
    accepted, or the repair itself raises. *)
Theorem one_column_never_named (file : csv_file num) :
  length (columns (read_csv file)) = 1 ->
  load_file file
  <> inl (ValueError (String.append "Column mismatch in " (name file))).
Proof.
  intros H1. unfold load_file, repaired. rewrite H1. cbn [Nat.eqb].
  destruct (shape_repair (read_csv file)) as [e | t] eqn:E.
  - unfold shape_repair in E.
    destruct (str_accessor_ok _); [|injection E as <-; discriminate].
    destruct (_ =? _); [discriminate|].
    injection E as <-. intros H. injection H. intros. discriminate.
  - apply shape_repair_rows in E as [Hc _].
    destruct (decide _); [discriminate | contradiction].
Qed.

(** A collapsed export (one column, every cell a line of text) is accepted
    exactly when its line with the most commas has six of them. *)
Theorem collapsed_accepted_iff (file_name header : string)
  (lines : list string) :
  accepted (mkFile (num := num) file_name
    (mkFrame [header] (map (fun line => [CStr line]) lines))) = true
  <-> list_max (map (fun line => S (count_char "," line)) lines) = 7.
Proof.
  unfold accepted, load_file, repaired, shape_repair.
  cbn [read_csv columns rows length Nat.eqb].
  rewrite map_map. cbn [iloc nth].
  replace (str_accessor_ok (map (fun x => CStr x) lines)) with true.
  2:{ unfold str_accessor_ok. destruct lines; reflexivity. }
  unfold expand_width. rewrite !map_map. cbn [str_split split_len].
  rewrite (map_ext _ (fun line => S (count_char "," line))).
  2:{ intros line. rewrite length_map. apply split_length. }
  cbn [EXPECTED_COLUMNS length].
  destruct (_ =? 7) eqn:E.
  - apply Nat.eqb_eq in E. destruct (decide _); [tauto | contradiction].
  - apply Nat.eqb_neq in E. split; [discriminate | contradiction].
Qed.

End Shape.

End IngestionFacts.

(* ===================================================================== *)
(** * From the build to the loaded frame *)
(* ===================================================================== *)

Module RoundTrip.
Import Pd BuildDb PyFacts PdFacts BuildDbSpec LoadData.

(** ** The order on dates *)

Lemma date_leb_spec d1 d2 :
  date_leb d1 d2 = true
  <-> year d1 < year d2
      \/ (year d1 = year d2
          /\ (month d1 < month d2
              \/ (month d1 = month d2 /\ day d1 <= day d2))).
Proof.
  unfold date_leb.
  destruct (Nat.ltb_spec (year d1) (year d2)); [intuition lia|].
  destruct (Nat.ltb_spec (year d2) (year d1)); [intuition (lia || discriminate)|].
  destruct (Nat.ltb_spec (month d1) (month d2)); [intuition lia|].
  destruct (Nat.ltb_spec (month d2) (month d1)); [intuition (lia || discriminate)|].
  rewrite Nat.leb_le. intuition lia.
Qed.

Lemma date_leb_refl d : date_leb d d = true.
Proof. apply date_leb_spec. lia. Qed.

Lemma date_leb_trans d1 d2 d3 :
  date_leb d1 d2 = true -> date_leb d2 d3 = true -> date_leb d1 d3 = true.
Proof. rewrite !date_leb_spec. lia. Qed.

Lemma date_leb_total d1 d2 : date_leb d1 d2 = false -> date_leb d2 d1 = true.
Proof.
  intros H. apply not_true_iff_false in H. rewrite date_leb_spec in *. lia.
Qed.

Lemma ts_leb_date t1 t2 :
  ts_leb t1 t2 = true -> date_leb (ts_date t1) (ts_date t2) = true.
Proof. unfold ts_leb. now destruct (date_leb (ts_date t1) (ts_date t2)). Qed.

Lemma ts_leb_total t1 t2 : ts_leb t1 t2 = false -> ts_leb t2 t1 = true.
Proof.
  unfold ts_leb.
  destruct (date_leb (ts_date t1) (ts_date t2)) eqn:E12;
  destruct (date_leb (ts_date t2) (ts_date t1)) eqn:E21; try discriminate.
  - intros H. apply N.leb_gt in H. apply N.leb_le. lia.
  - reflexivity.
  - apply date_leb_total in E12. congruence.
Qed.

Lemma date_le_total (a b : option timestamp) :
  date_le a b = false -> date_le b a = true.
Proof.
  destruct a, b; simpl; try discriminate; try reflexivity.
  apply ts_leb_total.
Qed.

Section Query.

Context {num : Type}.
Variable str_num : num -> string.
Variable to_datetime : list (cell num) -> cell num -> option timestamp.
Variable to_numeric : cell num -> option num.
Variable read_id : list (cell num) -> cell num -> cell num.

Local Abbreviation main := (BuildDb.main str_num to_datetime to_numeric).
Local Abbreviation working_set :=
  (BuildDb.working_set str_num to_datetime to_numeric).
Local Abbreviation clean := (BuildDb.clean str_num to_datetime to_numeric).
Local Abbreviation join := (LoadData.join read_id).
Local Abbreviation load_data := (LoadData.load_data read_id).
Local Abbreviation loaded_set := (LoadData.loaded_set read_id).

Local Abbreviation by_date :=
  (fun r1 r2 : App.loaded_row num =>
     date_le (App.date r1) (App.date r2) = true).

(** ** The ordering *)

Lemma insert_by_date_perm (r : App.loaded_row num) l :
  Permutation (r :: l) (insert_by_date r l).
Proof.
  induction l as [|y l IH]; simpl; [reflexivity|].
  destruct (date_le _ _); [reflexivity|].
  rewrite perm_swap. now constructor.
Qed.

Lemma order_by_date_perm (l : list (App.loaded_row num)) :
  Permutation l (order_by_date l).
Proof.
  induction l as [|r l IH]; simpl; [constructor|].
  rewrite <- insert_by_date_perm. now constructor.
Qed.

Lemma insert_by_date_sorted (r : App.loaded_row num) l :
  Sorted by_date l -> Sorted by_date (insert_by_date r l).
Proof.
  induction l as [|y l IH]; simpl; intros Hs; [repeat constructor|].
  destruct (date_le (App.date r) (App.date y)) eqn:E.
  - constructor; [assumption | now constructor].
  - apply Sorted_inv in Hs as [Hs Hy]. constructor; [now apply IH|].
    destruct l as [|z l]; simpl.
    + constructor. now apply date_le_total.
    + destruct (date_le (App.date r) (App.date z)).
      * constructor. now apply date_le_total.
      * constructor. now inversion Hy.
Qed.

Lemma order_by_date_sorted (l : list (App.loaded_row num)) :
  Sorted by_date (order_by_date l).
Proof.
  induction l as [|r l IH]; simpl; [constructor|].
  now apply insert_by_date_sorted.
Qed.

(** ** The join *)

Lemma filter_eqb_sym (k : nat) (table : list (string * nat)) :
  List.filter (fun d => k =? snd d) table
  = List.filter (fun d => snd d =? k) table.
Proof. apply filter_ext. intros d. apply Nat.eqb_sym. Qed.

Lemma join_rows_keyed ids (df : list (row num)) txs accounts categories :
  List.NoDup (map snd accounts) -> List.NoDup (map snd categories) ->
  List.Forall2 (keyed accounts categories) df txs ->
  flat_map (fun t =>
    flat_map (fun a =>
      map (select read_id ids t a)
        (List.filter (fun c => tx_category_id t =? snd c) categories))
      (List.filter (fun a => tx_account_id t =? snd a) accounts))
    txs
  = map (as_loaded read_id ids) df.
Proof.
  intros Ha Hc. induction 1 as [|r t df txs [Hf [Hra Hrc]] _ IH];
    [reflexivity|].
  cbn [flat_map map]. rewrite IH. clear IH.
  pose proof (filter_id_unique snd accounts
                (account_name r, tx_account_id t) Ha Hra) as Ea.
  pose proof (filter_id_unique snd categories
                (category_name r, tx_category_id t) Hc Hrc) as Ec.
  cbn [snd] in Ea, Ec.
  rewrite (filter_eqb_sym (tx_account_id t) accounts), Ea. cbn [flat_map].
  rewrite (filter_eqb_sym (tx_category_id t) categories), Ec.
  cbn [map app]. f_equal. unfold tx_fields, row_fields in Hf.
  injection Hf as H1 H2 H3 H4 H5. unfold select, as_loaded. cbn [fst].
  now rewrite H1, H2, H3, H4, H5.
Qed.

Lemma join_keyed (df : list (row num)) txs accounts categories :
  List.NoDup (map snd accounts) -> List.NoDup (map snd categories) ->
  List.Forall2 (keyed accounts categories) df txs ->
  join txs accounts categories = loaded_set df.
Proof.
  intros Ha Hc Hk. unfold LoadData.join, LoadData.loaded_set. cbv zeta.
  rewrite (Forall2_map_eq _ transaction_id tx_transaction_id _ _ Hk).
  - now apply join_rows_keyed.
  - intros x y [Hf _]. unfold tx_fields, row_fields in Hf. congruence.
Qed.


(** Whatever the store holds, the frame that [load_data] returns has every
    row of the join exactly once, ordered by date with the rows without a
    date first. *)
Theorem load_data_ordered (db : gmap string (table num)) txs accounts
  categories :
  db !! "Transactions" = Some (Fact txs) ->
  db !! "Accounts" = Some (Dim accounts) ->
  db !! "Categories" = Some (Dim categories) ->
  exists df,
    load_data db = Some df
    /\ Permutation (join txs accounts categories) df
    /\ Sorted by_date df.
Proof.
  intros Ht Ha Hc. unfold load_data. rewrite Ht, Ha, Hc.
  eexists. split; [reflexivity|].
  split; [apply order_by_date_perm | apply order_by_date_sorted].
Qed.

(** The query fails when one of the three tables is absent, as on a store
    that no build has written. *)
Theorem load_data_needs_tables (db : gmap string (table num)) :
  db !! "Transactions" = None \/ db !! "Accounts" = None
  \/ db !! "Categories" = None ->
  load_data db = None.
Proof.
  unfold load_data. intros [H | [H | H]]; rewrite H.
  - reflexivity.
  - now destruct (db !! "Transactions") as [[]|].
  - destruct (db !! "Transactions") as [[]|]; try reflexivity.
    now destruct (db !! "Accounts") as [[]|].
Qed.

End Query.

End RoundTrip.

(* ===================================================================== *)
(** * Further properties of the filter pipeline and the metrics *)
(* ===================================================================== *)

Module ReportingFacts.
Import Pd App PyFacts PdFacts AppSpec Criteria RoundTrip.

Section Filters.

Context {num : Type}.
Variable nsum : list num -> num.
Variable nsub : num -> num -> num.
Variable csv_cell : cell num -> string.
Variable csv_date : list (option timestamp) -> option timestamp -> string.
Variable csv_num : option num -> string.

Local Abbreviation summary := (App.summary nsum nsub).
Local Abbreviation total := (App.total nsum).
Local Abbreviation session :=
  (App.session nsum nsub csv_cell csv_date csv_num).

Local Abbreviation ascending :=
  (fun a b : string => String.leb a b = true).

(** ** The stages as filters *)

Lemma membership_stage {A} (key : A -> string) selected (l : list A) :
  match selected with
  | [] => l
  | _ => List.filter (fun r => Py.isin selected (key r)) l
  end = List.filter (fun r => chosen selected (key r)) l.
Proof.
  destruct selected; [|reflexivity]. symmetry. now apply filter_all.
Qed.

Lemma month_filter_chosen selected (l : list (view_row num)) :
  month_filter selected l
  = List.filter (fun r => chosen selected (year_month r)) l.
Proof. apply (membership_stage year_month). Qed.

Lemma category_filter_chosen selected (l : list (view_row num)) :
  category_filter selected l
  = List.filter (fun r => chosen selected (category_name (loaded r))) l.
Proof. apply (membership_stage (fun r => category_name (loaded r))). Qed.

Lemma account_filter_chosen selected (l : list (view_row num)) :
  account_filter selected l
  = List.filter (fun r => chosen selected (account_name (loaded r))) l.
Proof. apply (membership_stage (fun r => account_name (loaded r))). Qed.

Lemma pipeline_filter (d : list (view_row num)) (c : controls) :
  pipeline d c = List.filter (passes c) d.
Proof.
  unfold pipeline, date_filter.
  rewrite month_filter_chosen, category_filter_chosen, account_filter_chosen.
  rewrite !filter_filter. apply filter_ext. intros r. unfold passes.
  now rewrite !andb_assoc.
Qed.

Lemma filter_twice {A} (p : A -> bool) l :
  List.filter p (List.filter p l) = List.filter p l.
Proof.
  rewrite filter_filter. apply filter_ext. intros x. now destruct (p x).
Qed.

Lemma filter_comm {A} (p q : A -> bool) l :
  List.filter p (List.filter q l) = List.filter q (List.filter p l).
Proof.
  rewrite !filter_filter. apply filter_ext. intros x. apply andb_comm.
Qed.

(** The four stages amount to one filter: a row is in the final filtered
    set exactly when it is in the frame and passes each of the four
    criteria, and the rows keep their order and their multiplicity. *)
Theorem pipeline_is_one_filter (d : list (view_row num)) (c : controls) :
  pipeline d c = List.filter (passes c) d
  /\ forall r, In r (pipeline d c) <->
       In r d
       /\ chosen (selected_months c) (year_month r) = true
       /\ in_range (fst (date_range c)) (snd (date_range c))
            (date (loaded r)) = true
       /\ chosen (selected_categories c) (category_name (loaded r)) = true
       /\ chosen (selected_accounts c) (account_name (loaded r)) = true.
Proof.
  split; [apply pipeline_filter|]. intros r.
  rewrite pipeline_filter, filter_In. unfold passes.
  rewrite !andb_true_iff. tauto.
Qed.

(** Each stage narrows the result of the one before it. *)
Theorem stages_narrow (d : list (view_row num)) (c : controls) :
  let f1 := month_filter (selected_months c) d in
  let f2 := date_filter (date_range c) f1 in
  let f3 := category_filter (selected_categories c) f2 in
  let f4 := account_filter (selected_accounts c) f3 in
  f4 = pipeline d c
  /\ length f4 <= length f3 /\ length f3 <= length f2
  /\ length f2 <= length f1 /\ length f1 <= length d.
Proof.
  cbv zeta. split; [reflexivity|].
  rewrite account_filter_chosen, category_filter_chosen, month_filter_chosen.
  unfold date_filter. repeat split; apply filter_length_le.
Qed.

(** Applying the same controls to the filtered set changes nothing, and the
    category and account stages can be swapped. *)
Theorem pipeline_idempotent (d : list (view_row num)) (c : controls) :
  pipeline (pipeline d c) c = pipeline d c
  /\ forall cats accts (l : list (view_row num)),
       account_filter accts (category_filter cats l)
       = category_filter cats (account_filter accts l).
Proof.
  split.
  - rewrite !pipeline_filter. apply filter_twice.
  - intros cats accts l.
    rewrite !account_filter_chosen, !category_filter_chosen.
    apply filter_comm.
Qed.

(** ** The default controls *)

Lemma ts_min_bound l lo :
  ts_min l = Some lo ->
  forall t, In t l -> date_leb (ts_date lo) (ts_date t) = true.
Proof.
  revert lo. induction l as [|x l IH]; intros lo H t Ht; [contradiction|].
  unfold ts_min in H. cbn [fold_right] in H. fold (ts_min l) in H.
  destruct (ts_min l) as [m|] eqn:Em.
  - injection H as <-. destruct (ts_leb x m) eqn:E.
    + destruct Ht as [<- | Ht]; [apply date_leb_refl|].
      eapply date_leb_trans; [apply ts_leb_date, E | now apply IH].
    + destruct Ht as [<- | Ht]; [|now apply IH].
      apply ts_leb_date. now apply ts_leb_total.
  - injection H as <-. apply ts_min_None in Em. subst l.
    destruct Ht as [<- | []]. apply date_leb_refl.
Qed.

Lemma ts_max_bound l hi :
  ts_max l = Some hi ->
  forall t, In t l -> date_leb (ts_date t) (ts_date hi) = true.
Proof.
  revert hi. induction l as [|x l IH]; intros hi H t Ht; [contradiction|].
  unfold ts_max in H. cbn [fold_right] in H. fold (ts_max l) in H.
  destruct (ts_max l) as [m|] eqn:Em.
  - injection H as <-. destruct (ts_leb m x) eqn:E.
    + destruct Ht as [<- | Ht]; [apply date_leb_refl|].
      eapply date_leb_trans; [now apply IH | apply ts_leb_date, E].
    + destruct Ht as [<- | Ht]; [|now apply IH].
      apply ts_leb_date. now apply ts_leb_total.
  - injection H as <-. apply ts_max_None in Em. subst l.
    destruct Ht as [<- | []]. apply date_leb_refl.
Qed.

(** With every control left at its default (all months, the range from the
    earliest to the latest date, all categories, all accounts) the
    filtered set is the frame without its rows that have no date. *)
Theorem default_controls_show_dated (d : list (view_row num)) range :
  default_range d = inr range ->
  pipeline d (default_controls d range) = List.filter has_date d.
Proof.
  intros Hr. unfold pipeline, default_controls.
  cbn [selected_months date_range selected_categories selected_accounts].
  pose proof (isin_options year_month d) as Hm. cbv zeta in Hm.
  fold (available_months d) in Hm.
  change (month_filter (available_months d) d = d) in Hm. rewrite Hm.
  set (f2 := date_filter range d).
  pose proof (isin_options (fun r => category_name (loaded r)) f2) as Hc.
  cbv zeta in Hc. fold (category_options f2) in Hc.
  change (category_filter (category_options f2) f2 = f2) in Hc. rewrite Hc.
  pose proof (isin_options (fun r => account_name (loaded r)) f2) as Ha.
  cbv zeta in Ha. fold (account_options f2) in Ha.
  change (account_filter (account_options f2) f2 = f2) in Ha. rewrite Ha.
  subst f2. unfold date_filter. apply filter_ext_in. intros r Hin.
  unfold has_date. destruct (date (loaded r)) as [t|] eqn:Et; [|reflexivity].
  unfold default_range in Hr.
  assert (Hd : In t (dropna (map (fun r => date (loaded r)) d))).
  { apply dropna_In. rewrite <- Et.
    now apply (in_map (fun r : view_row num => date (loaded r))). }
  destruct (ts_min _) as [lo|] eqn:Elo; [|discriminate].
  destruct (ts_max _) as [hi|] eqn:Ehi; [|discriminate].
  injection Hr as <-. cbn [fst snd in_range].
  rewrite (ts_min_bound _ _ Elo _ Hd), (ts_max_bound _ _ Ehi _ Hd).
  reflexivity.
Qed.


(** ** The metrics *)

Lemma dropna_cons {A} (o : option A) l :
  dropna (o :: l)
  = match o with Some a => a :: dropna l | None => dropna l end.
Proof. now destruct o. Qed.

Lemma dropna_filter_counted (p q : view_row num -> bool) l :
  (forall r, p r = true -> amount (loaded r) <> None -> q r = true) ->
  dropna (map (fun r => amount (loaded r))
    (List.filter (fun r => q r && p r) l))
  = dropna (map (fun r => amount (loaded r)) (List.filter p l)).
Proof.
  intros H. induction l as [|r l IH]; [reflexivity|]. cbn [List.filter].
  destruct (p r) eqn:Ep.
  - destruct (amount (loaded r)) as [a|] eqn:Ea.
    + rewrite (H r Ep) by congruence. cbn [andb map].
      rewrite !dropna_cons, Ea. now rewrite IH.
    + destruct (q r); cbn [andb map]; rewrite ?dropna_cons, ?Ea; exact IH.
  - rewrite andb_false_r. exact IH.
Qed.

(** The three metrics depend only on the rows typed income or expense that
    have an amount: a row with a null amount, or of any other type, changes
    none of them. *)
Theorem summary_ignores_uncounted (filtered : list (view_row num)) :
  summary (List.filter counted filtered) = summary filtered.
Proof.
  assert (H : forall kind,
    kind = "income"%string \/ kind = "expense"%string ->
    total kind (List.filter counted filtered) = total kind filtered).
  { intros kind Hk. unfold App.total. f_equal. rewrite filter_filter.
    apply dropna_filter_counted. intros r Ht Ha. unfold counted.
    apply String.eqb_eq in Ht.
    destruct (amount (loaded r)); [|congruence]. rewrite andb_true_r.
    destruct Hk as [-> | ->]; rewrite Ht; reflexivity. }
  unfold App.summary. now rewrite !H by auto.
Qed.

(** ** The option lists *)

Lemma insert_sorted_perm x l : Permutation (x :: l) (Py.insert_sorted x l).
Proof.
  induction l as [|y l IH]; simpl; [reflexivity|].
  destruct (String.leb x y); [reflexivity|].
  rewrite perm_swap. now constructor.
Qed.

Lemma sorted_perm l : Permutation l (Py.sorted l).
Proof.
  induction l as [|x l IH]; simpl; [constructor|].
  rewrite <- insert_sorted_perm. now constructor.
Qed.

Lemma leb_flip x y : String.leb x y = false -> String.leb y x = true.
Proof. destruct (String.leb_total x y); congruence. Qed.

Lemma insert_sorted_Sorted x l :
  Sorted ascending l -> Sorted ascending (Py.insert_sorted x l).
Proof.
  induction l as [|y l IH]; simpl; intros Hs; [repeat constructor|].
  destruct (String.leb x y) eqn:E.
  - constructor; [assumption | now constructor].
  - apply Sorted_inv in Hs as [Hs Hy]. constructor; [now apply IH|].
    destruct l as [|z l]; simpl.
    + constructor. now apply leb_flip.
    + destruct (String.leb x z).
      * constructor. now apply leb_flip.
      * constructor. now inversion Hy.
Qed.

Lemma sorted_Sorted l : Sorted ascending (Py.sorted l).
Proof.
  induction l as [|x l IH]; simpl; [constructor|].
  now apply insert_sorted_Sorted.
Qed.

Lemma options_spec {A} (key : A -> string) (l : list A) :
  let options := Py.sorted (drop_duplicates (map key l)) in
  Sorted ascending options
  /\ List.NoDup options
  /\ forall v, In v options <-> exists r, In r l /\ key r = v.
Proof.
  cbv zeta. split; [apply sorted_Sorted|]. split.
  - eapply Permutation_NoDup; [apply sorted_perm|].
    apply drop_duplicates_NoDup.
  - intros v. rewrite sorted_In, drop_duplicates_In, in_map_iff.
    split; intros [r [H1 H2]]; exists r; auto.
Qed.

(** The option lists offered by the three multi-selects (months,
    categories, accounts) are in ascending order, hold no value twice, and
    hold exactly the values present in the frame each is computed from. *)
Theorem option_lists (df filtered : list (view_row num)) :
  (Sorted ascending (available_months df)
   /\ List.NoDup (available_months df)
   /\ forall v, In v (available_months df)
        <-> exists r, In r df /\ year_month r = v)
  /\ (Sorted ascending (category_options filtered)
      /\ List.NoDup (category_options filtered)
      /\ forall v, In v (category_options filtered)
           <-> exists r, In r filtered /\ category_name (loaded r) = v)
  /\ (Sorted ascending (account_options filtered)
      /\ List.NoDup (account_options filtered)
      /\ forall v, In v (account_options filtered)
           <-> exists r, In r filtered /\ account_name (loaded r) = v).
Proof.
  split; [|split].
  - apply (options_spec year_month df).
  - apply (options_spec (fun r => category_name (loaded r)) filtered).
  - apply (options_spec (fun r => account_name (loaded r)) filtered).
Qed.

End Filters.

End ReportingFacts.

(* ===================================================================== *)
(** * The month labels *)
(* ===================================================================== *)

Module PeriodFacts.
Import Py Pd Text TextFacts.

Local Open Scope string_scope.

Lemma count_char_app c a b :
  count_char c (a ++ b) = count_char c a + count_char c b.
Proof.
  induction a as [|x a IH]; [reflexivity|].
  rewrite append_cons. simpl. rewrite IH. lia.
Qed.

Lemma count_dash_digits d : count_char "-" (NilEmpty.string_of_uint d) = 0.
Proof. induction d; simpl; auto. Qed.

Lemma count_dash_str_nat n : count_char "-" (str_nat n) = 0.
Proof.
  unfold str_nat, NilZero.string_of_uint.
  destruct (Nat.to_uint n); try reflexivity; apply count_dash_digits.
Qed.

Lemma count_dash_zeros k : count_char "-" (zeros k) = 0.
Proof. induction k; simpl; auto. Qed.

Lemma count_dash_zfill w n : count_char "-" (zfill w n) = 0.
Proof.
  unfold zfill. now rewrite count_char_app, count_dash_zeros, count_dash_str_nat.
Qed.

Lemma split_none sep s : count_char sep s = 0 -> split sep s = [s].
Proof.
  induction s as [|c s IH]; simpl; [reflexivity|].
  destruct (Ascii.eqb c sep); [discriminate|]. simpl. intros H.
  now rewrite (IH H).
Qed.

Lemma split_first sep a b :
  count_char sep a = 0 -> split sep (a ++ String sep b) = a :: split sep b.
Proof.
  induction a as [|c a IH]; intros H.
  - rewrite append_nil_l. simpl. now rewrite Ascii.eqb_refl.
  - rewrite append_cons. simpl in *.
    destruct (Ascii.eqb c sep); [discriminate|]. now rewrite (IH H).
Qed.

Lemma split_period t :
  split "-" (period_M t)
  = [zfill 4 (year (ts_date t)); zfill 2 (month (ts_date t))].
Proof.
  unfold period_M. rewrite split_first by apply count_dash_zfill.
  now rewrite split_none by apply count_dash_zfill.
Qed.

Lemma parse_zeros k s :
  NilEmpty.uint_of_string (zeros k ++ s)
  = option_map (Nat.iter k D0) (NilEmpty.uint_of_string s).
Proof.
  induction k as [|k IH].
  { cbn [zeros]. rewrite append_nil_l.
    now destruct (NilEmpty.uint_of_string s). }
  cbn [zeros]. rewrite append_cons. cbn [NilEmpty.uint_of_string].
  rewrite IH. now destruct (NilEmpty.uint_of_string s).
Qed.

Lemma of_uint_zeros k d : Nat.of_uint (Nat.iter k D0 d) = Nat.of_uint d.
Proof. induction k as [|k IH]; [reflexivity | exact IH]. Qed.

Lemma parse_str_nat n :
  option_map Nat.of_uint (NilEmpty.uint_of_string (str_nat n)) = Some n.
Proof.
  unfold str_nat. rewrite <- (DecimalNat.Unsigned.of_to n) at 2.
  destruct (Nat.to_uint n) eqn:E; try reflexivity;
    unfold NilZero.string_of_uint; now rewrite NilEmpty.usu.
Qed.

(** Reading a padded number back gives the number. *)
Lemma parse_zfill w n :
  option_map Nat.of_uint (NilEmpty.uint_of_string (zfill w n)) = Some n.
Proof.
  unfold zfill. rewrite parse_zeros.
  pose proof (parse_str_nat n) as H.
  destruct (NilEmpty.uint_of_string (str_nat n)) as [d|]; [|discriminate].
  cbn [option_map] in *. now rewrite of_uint_zeros.
Qed.

Lemma zfill_inj w n n' : zfill w n = zfill w n' -> n = n'.
Proof.
  intros H. pose proof (parse_zfill w n) as E. rewrite H, parse_zfill in E.
  now injection E.
Qed.

(** Two timestamps get the same year_month label exactly when they fall in
    the same month of the same year, and no timestamp gets the label of
    the rows without a date: a month selected in the sidebar selects the
    rows of that calendar month and no other. *)
Theorem month_labels_distinct :
  (forall t1 t2,
     App.bucket (Some t1) = App.bucket (Some t2)
     <-> year (ts_date t1) = year (ts_date t2)
         /\ month (ts_date t1) = month (ts_date t2))
  /\ forall t, App.bucket (Some t) <> App.bucket None.
Proof.
  split.
  - intros t1 t2. cbn [App.bucket]. split.
    + intros H. apply (f_equal (split "-")) in H.
      rewrite !split_period in H. injection H as Hy Hm.
      split; [exact (zfill_inj _ _ _ Hy) | exact (zfill_inj _ _ _ Hm)].
    + intros [Hy Hm]. unfold period_M. now rewrite Hy, Hm.
  - intros t H. cbn [App.bucket] in H. apply (f_equal (split "-")) in H.
    rewrite split_period in H. discriminate.
Qed.

End PeriodFacts.

(* ===================================================================== *)
(** * Properties of the expense sections *)
(* ===================================================================== *)

Module ChartFacts.
Import Pd App PyFacts PdFacts Charts.

Section Expenses.

Context {num : Type}.
Variable nsum : list num -> num.
Variable nleb : num -> num -> bool.

Local Abbreviation category_totals := (Charts.category_totals nsum).
Local Abbreviation amount_ge := (Charts.amount_ge nleb).
Local Abbreviation sort_values_desc := (Charts.sort_values_desc nleb).
Local Abbreviation top5 := (Charts.top5 nleb).
Local Abbreviation render := (Charts.render nsum nleb).

Local Abbreviation ascending :=
  (fun a b : string => String.leb a b = true).

Local Abbreviation descending :=
  (fun r1 r2 : view_row num =>
     amount_ge (amount (loaded r1)) (amount (loaded r2)) = true).

(** ** The breakdown by category *)

Lemma flat_map_nil {A B} (l : list A) : flat_map (fun _ => @nil B) l = [].
Proof. induction l; simpl; auto. Qed.

Lemma flat_map_all_nil {A B} (f : A -> list B) l :
  (forall k, In k l -> f k = []) -> flat_map f l = [].
Proof.
  induction l as [|k l IH]; simpl; intros H; [reflexivity|].
  rewrite (H k) by now left. apply IH. intros; apply H; now right.
Qed.

Lemma flat_map_app_perm {A B} (g f : A -> list B) l :
  Permutation (flat_map (fun k => g k ++ f k) l)
    (flat_map g l ++ flat_map f l).
Proof.
  induction l as [|k l IH]; simpl; [constructor|].
  rewrite IH, <- !app_assoc. apply Permutation_app_head.
  rewrite !app_assoc. apply Permutation_app_tail. apply Permutation_app_comm.
Qed.

Lemma flat_map_single {B} (r : B) k0 keys :
  List.NoDup keys -> In k0 keys ->
  flat_map (fun k => if String.eqb k0 k then [r] else []) keys = [r].
Proof.
  induction keys as [|k keys IH]; simpl; intros Hnd Hin; [contradiction|].
  inversion Hnd as [|? ? Hk Hnd']; subst.
  destruct (String.eqb k0 k) eqn:E.
  - apply String.eqb_eq in E. subst k. simpl. f_equal.
    apply flat_map_all_nil. intros k Hin'.
    destruct (String.eqb k0 k) eqn:E'; [|reflexivity].
    apply String.eqb_eq in E'. now subst k.
  - destruct Hin as [-> | Hin]; [now rewrite String.eqb_refl in E|].
    now apply IH.
Qed.

Lemma group_partition {A} (key : A -> string) keys (l : list A) :
  List.NoDup keys -> (forall r, In r l -> In (key r) keys) ->
  Permutation
    (flat_map (fun k => List.filter (fun r => String.eqb (key r) k) l) keys)
    l.
Proof.
  intros Hnd. induction l as [|r l IH]; intros Hin.
  - simpl. now rewrite flat_map_nil.
  - rewrite (flat_map_ext _
      (fun k => (if String.eqb (key r) k then [r] else [])
                ++ List.filter (fun r => String.eqb (key r) k) l)).
    2:{ intros k. simpl. now destruct (String.eqb (key r) k). }
    rewrite flat_map_app_perm.
    rewrite (flat_map_single r (key r) keys Hnd) by (apply Hin; now left).
    simpl. constructor. apply IH. intros; apply Hin; now right.
Qed.

(** The breakdown has one entry per category present among the rows, in
    ascending order of the category; the groups split the rows with none
    lost or counted twice; each entry is the sum of its group's non-null
    amounts. *)
Theorem category_breakdown (df : list (view_row num)) :
  let keys := map fst (category_totals df) in
  Sorted ascending keys
  /\ List.NoDup keys
  /\ (forall k, In k keys
        <-> exists r, In r df /\ category_name (loaded r) = k)
  /\ Permutation
       (flat_map (fun k =>
          List.filter (fun r => String.eqb (category_name (loaded r)) k) df)
          keys)
       df
  /\ forall k v, In (k, v) (category_totals df) ->
       v = nsum (dropna (group_amounts k df)).
Proof.
  cbv zeta. unfold Charts.category_totals. rewrite map_map. cbn [fst].
  rewrite map_id.
  destruct (ReportingFacts.options_spec
              (fun r : view_row num => category_name (loaded r)) df)
    as [Hs [Hnd Hin]].
  split; [exact Hs|]. split; [exact Hnd|]. split; [exact Hin|]. split.
  - apply group_partition; [exact Hnd|]. intros r Hr. apply Hin. eauto.
  - intros k v Hkv. apply in_map_iff in Hkv as [k' [E _]].
    now injection E as -> <-.
Qed.

(** ** The largest expenses *)

Hypothesis nleb_total : forall a b, nleb a b = false -> nleb b a = true.
Hypothesis nleb_trans :
  forall a b c, nleb a b = true -> nleb b c = true -> nleb a c = true.

Lemma amount_ge_total a b : amount_ge a b = false -> amount_ge b a = true.
Proof.
  destruct a, b; simpl; try discriminate; try reflexivity.
  apply nleb_total.
Qed.

Lemma amount_ge_trans a b c :
  amount_ge a b = true -> amount_ge b c = true -> amount_ge a c = true.
Proof.
  destruct a, b, c; simpl; try discriminate; try reflexivity.
  intros H1 H2. now apply (nleb_trans _ _ _ H2 H1).
Qed.

Lemma insert_desc_perm (r : view_row num) l :
  Permutation (r :: l) (insert_desc nleb r l).
Proof.
  induction l as [|y l IH]; simpl; [reflexivity|].
  destruct (Charts.amount_ge _ _ _); [reflexivity|].
  rewrite perm_swap. now constructor.
Qed.

Lemma sort_values_desc_perm (l : list (view_row num)) :
  Permutation l (sort_values_desc l).
Proof.
  induction l as [|r l IH]; simpl; [constructor|].
  rewrite <- insert_desc_perm. now constructor.
Qed.

Lemma insert_desc_sorted (r : view_row num) l :
  Sorted descending l -> Sorted descending (insert_desc nleb r l).
Proof.
  induction l as [|y l IH]; simpl; intros Hs; [repeat constructor|].
  destruct (amount_ge (amount (loaded r)) (amount (loaded y))) eqn:E.
  - constructor; [assumption | now constructor].
  - apply Sorted_inv in Hs as [Hs Hy]. constructor; [now apply IH|].
    destruct l as [|z l]; simpl.
    + constructor. now apply amount_ge_total.
    + destruct (amount_ge (amount (loaded r)) (amount (loaded z))).
      * constructor. now apply amount_ge_total.
      * constructor. now inversion Hy.
Qed.

Lemma sort_values_desc_sorted (l : list (view_row num)) :
  StronglySorted descending (sort_values_desc l).
Proof.
  apply Sorted_StronglySorted.
  - intros x y z. apply amount_ge_trans.
  - induction l as [|r l IH]; simpl; [constructor|].
    now apply insert_desc_sorted.
Qed.

Lemma StronglySorted_app {A} (R : A -> A -> Prop) l1 l2 :
  StronglySorted R (l1 ++ l2) ->
  StronglySorted R l1 /\ forall x y, In x l1 -> In y l2 -> R x y.
Proof.
  induction l1 as [|a l1 IH]; simpl; intros H.
  - split; [constructor | contradiction].
  - apply StronglySorted_inv in H as [Hs Ha].
    destruct (IH Hs) as [H1 H2]. rewrite List.Forall_forall in Ha. split.
    + constructor; [assumption|]. rewrite List.Forall_forall.
      intros x Hx. apply Ha, in_or_app. now left.
    + intros x y [<- | Hx] Hy; [apply Ha, in_or_app; now right | auto].
Qed.

(** The top list holds five rows, or all of them when there are fewer; they
    are rows of the frame, in descending order of amount, and no row left
    out has a larger amount than a row in the list (a null amount counts
    as the smallest). *)
Theorem top5_largest (df : list (view_row num)) :
  length (top5 df) = Nat.min 5 (length df)
  /\ Sorted descending (top5 df)
  /\ exists rest,
       Permutation (top5 df ++ rest) df
       /\ forall x y, In x (top5 df) -> In y rest ->
            amount_ge (amount (loaded x)) (amount (loaded y)) = true.
Proof.
  unfold Charts.top5.
  pose proof (sort_values_desc_perm df) as Hp.
  pose proof (sort_values_desc_sorted df) as Hs.
  rewrite <- (firstn_skipn 5 (sort_values_desc df)) in Hs.
  apply StronglySorted_app in Hs as [Hs1 Hs2].
  split; [|split].
  - rewrite length_firstn. now rewrite (Permutation_length Hp).
  - now apply StronglySorted_Sorted.
  - exists (skipn 5 (sort_values_desc df)). split; [|exact Hs2].
    rewrite firstn_skipn. now symmetry.
Qed.

End Expenses.

Section Render.

Context {num : Type}.
Variable nsum : list num -> num.
Variable nleb : num -> num -> bool.

Local Abbreviation render := (Charts.render nsum nleb).

Lemma insert_desc_nonempty (r : view_row num) l : insert_desc nleb r l <> [].
Proof. destruct l; simpl; [|destruct (Charts.amount_ge _ _ _)]; discriminate. Qed.

Lemma insert_desc_length (r : view_row num) l :
  length (insert_desc nleb r l) = S (length l).
Proof.
  induction l as [|y l IH]; simpl; [reflexivity|].
  destruct (Charts.amount_ge _ _ _); simpl; [reflexivity | now rewrite IH].
Qed.

(** The three expense sections agree: when the filtered set has no expense
    row each of them shows its notice, and otherwise the two charts show
    the same breakdown, which has at least one category, and the list of
    largest expenses has between one and five rows. *)
Theorem sections_agree (filtered : list (view_row num)) :
  match expense_df filtered with
  | [] =>
      render filtered
      = mkSections (Notice "No expense data for the selected filters.")
          (Notice "No expense data to show.")
          (Notice "No expense records to display.")
  | _ :: _ =>
      exists totals top,
        render filtered = mkSections (Shown totals) (Shown totals) (Shown top)
        /\ totals = Charts.category_totals nsum (expense_df filtered)
        /\ top = Charts.top5 nleb (expense_df filtered)
        /\ totals <> [] /\ top <> [] /\ length top <= 5
  end.
Proof.
  unfold Charts.render. destruct (expense_df filtered) as [|r l] eqn:E;
    [reflexivity|].
  eexists _, _. split; [reflexivity|]. split; [reflexivity|].
  split; [reflexivity|]. split; [|split].
  - unfold Charts.category_totals. intros H.
    apply (f_equal (@length _)) in H. rewrite length_map in H.
    assert (Hin : In (category_name (loaded r))
              (Py.sorted (drop_duplicates
                 (map (fun r => category_name (loaded r)) (r :: l))))).
    { apply sorted_In, drop_duplicates_In. now left. }
    destruct (Py.sorted _); [contradiction | discriminate].
  - unfold Charts.top5, Charts.sort_values_desc. cbn [fold_right].
    intros H. apply (f_equal (@length _)) in H.
    rewrite length_firstn, insert_desc_length in H. simpl in H. lia.
  - unfold Charts.top5. rewrite length_firstn. lia.
Qed.

End Render.

End ChartFacts.

(* ===================================================================== *)
(** * The further properties on the sample inputs *)
(* ===================================================================== *)

Module MoreSamples.
Import Pd BuildDb Example Example2.

Local Abbreviation working_set :=
  (BuildDb.working_set str_num to_datetime to_numeric).

Lemma built_run : main sample_files ∅ = (inr tt, built).
Proof.
  unfold built. rewrite (surjective_pairing (main sample_files ∅)) at 1.
  f_equal; vm_compute; reflexivity.
Qed.

Lemma built_lookup_transactions :
  built !! "Transactions" = Some (Fact built_transactions).
Proof. vm_compute. reflexivity. Qed.

Lemma built_lookup_accounts : built !! "Accounts" = Some (Dim built_accounts).
Proof. vm_compute. reflexivity. Qed.

Lemma built_lookup_categories :
  built !! "Categories" = Some (Dim built_categories).
Proof. vm_compute. reflexivity. Qed.

Lemma old_store_run :
  main sample_files old_store
  = (inr tt, snd (main sample_files old_store)).
Proof.
  rewrite (surjective_pairing (main sample_files old_store)) at 1.
  f_equal; vm_compute; reflexivity.
Qed.

(** A string without white space at its ends. *)
Lemma strip_trimmed_id_witness :
  Text.trimmed "Checking account" = true
  /\ Py.strip "Checking account" = "Checking account"%string.
Proof.
  split; [reflexivity|]. apply TextFacts.strip_trimmed_id. reflexivity.
Defined.

(** The Budget table of the old store survives the build. *)
Lemma other_tables_kept_witness :
  main sample_files old_store = (inr tt, snd (main sample_files old_store))
  /\ snd (main sample_files old_store) !! "Budget" = old_store !! "Budget".
Proof.
  split; [exact old_store_run|].
  apply (IngestionFacts.other_tables_kept str_num to_datetime to_numeric
           sample_files old_store (inr tt) _ "Budget" old_store_run);
    discriminate.
Defined.

Lemma two_months_run :
  main two_months ∅ = (inr tt, snd (main two_months ∅)).
Proof.
  rewrite (surjective_pairing (main two_months ∅)) at 1.
  f_equal; vm_compute; reflexivity.
Qed.

Lemma rebuild_run :
  main sample_files (snd (main two_months ∅)) = (inr tt, built).
Proof. vm_compute. reflexivity. Qed.

(** Building the three files over the store of an earlier build of two of
    them gives the store of building the three files alone. *)
Lemma last_build_wins_witness :
  main two_months ∅ = (inr tt, snd (main two_months ∅))
  /\ main sample_files (snd (main two_months ∅)) = (inr tt, built)
  /\ main sample_files ∅ = (inr tt, built).
Proof.
  split; [exact two_months_run|]. split; [exact rebuild_run|].
  exact (IngestionFacts.last_build_wins str_num to_datetime to_numeric
           two_months sample_files ∅ _ _ _ two_months_run rebuild_run).
Defined.

Lemma six_csv_error :
  load_file six_csv = inl (ValueError "Column mismatch in Six.csv").
Proof. vm_compute. reflexivity. Qed.

(** Six.csv, second of three files, decides the outcome. *)
Lemma first_failure_decides_witness :
  forallb accepted [jan_csv] = true
  /\ load_file six_csv = inl (ValueError "Column mismatch in Six.csv")
  /\ main failing_batch ∅
     = (inl (ValueError "Column mismatch in Six.csv"), ∅).
Proof.
  assert (H : forallb accepted [jan_csv] = true) by (vm_compute; reflexivity).
  split; [exact H|]. split; [exact six_csv_error|].
  exact (IngestionFacts.first_failure_decides str_num to_datetime to_numeric
           [jan_csv] [feb_csv] six_csv _ ∅ H six_csv_error).
Defined.

(** The first two transactions, both on the Checking account, carry the
    same account_id, and different category ids. *)
Lemma same_name_same_id_witness :
  exists r1 r2 t1 t2,
    main sample_files ∅ = (inr tt, built)
    /\ built !! "Transactions" = Some (Fact built_transactions)
    /\ nth_error (working_set sample_files) 0 = Some r1
    /\ nth_error built_transactions 0 = Some t1
    /\ nth_error (working_set sample_files) 1 = Some r2
    /\ nth_error built_transactions 1 = Some t2
    /\ (account_name r1 = account_name r2
        <-> tx_account_id t1 = tx_account_id t2)
    /\ (category_name r1 = category_name r2
        <-> tx_category_id t1 = tx_category_id t2).
Proof.
  destruct (nth_error (working_set sample_files) 0) as [r1|] eqn:E1;
    [|vm_compute in E1; discriminate].
  destruct (nth_error built_transactions 0) as [t1|] eqn:E2;
    [|vm_compute in E2; discriminate].
  destruct (nth_error (working_set sample_files) 1) as [r2|] eqn:E3;
    [|vm_compute in E3; discriminate].
  destruct (nth_error built_transactions 1) as [t2|] eqn:E4;
    [|vm_compute in E4; discriminate].
  exists r1, r2, t1, t2.
  split; [exact built_run|]. split; [exact built_lookup_transactions|].
  do 4 (split; [reflexivity|]).
  exact (IngestionFacts.same_name_same_id str_num to_datetime to_numeric
           sample_files ∅ built built_transactions 0 1 r1 r2 t1 t2
           built_run built_lookup_transactions E1 E2 E3 E4).
Defined.

(** The account read as " Savings " is stored as Savings. *)
Lemma dimension_names_trimmed_witness :
  main sample_files ∅ = (inr tt, built)
  /\ built !! "Accounts" = Some (Dim built_accounts)
  /\ built !! "Categories" = Some (Dim built_categories)
  /\ List.Forall (fun d => Text.trimmed (fst d) = true) built_accounts
  /\ List.Forall (fun d => Text.trimmed (fst d) = true) built_categories.
Proof.
  split; [exact built_run|]. split; [exact built_lookup_accounts|].
  split; [exact built_lookup_categories|].
  exact (IngestionFacts.dimension_names_trimmed str_num to_datetime
           to_numeric sample_files ∅ built _ _ built_run
           built_lookup_accounts built_lookup_categories).
Defined.

Lemma short_csv_repair :
  shape_repair (read_csv short_csv) = inr short_repaired.
Proof. vm_compute. reflexivity. Qed.

(** Short.csv, whose second line has two fields, is repaired into two rows
    of seven cells. *)
Lemma repaired_frame_rectangular_witness :
  shape_repair (read_csv short_csv) = inr short_repaired
  /\ columns short_repaired = EXPECTED_COLUMNS
  /\ length (rows short_repaired) = length (rows (read_csv short_csv))
  /\ List.Forall (fun r => length r = 7) (rows short_repaired).
Proof.
  split; [exact short_csv_repair|].
  exact (IngestionFacts.repaired_frame_rectangular _ _ short_csv_repair).
Defined.

(** Narrow.csv is read as one column. *)
Lemma one_column_never_named_witness :
  length (columns (read_csv narrow_csv)) = 1
  /\ load_file narrow_csv
     <> inl (ValueError (String.append "Column mismatch in "
                           (name narrow_csv))).
Proof.
  split; [reflexivity|].
  apply IngestionFacts.one_column_never_named. reflexivity.
Defined.


(** The loaded frame of the built store is ordered by date. *)
Lemma load_data_ordered_witness :
  built !! "Transactions" = Some (Fact built_transactions)
  /\ built !! "Accounts" = Some (Dim built_accounts)
  /\ built !! "Categories" = Some (Dim built_categories)
  /\ exists df,
       LoadData.load_data read_id built = Some df
       /\ Permutation
            (LoadData.join read_id built_transactions built_accounts
               built_categories)
            df
       /\ Sorted (fun r1 r2 : App.loaded_row num =>
                    LoadData.date_le (App.date r1) (App.date r2) = true) df.
Proof.
  split; [exact built_lookup_transactions|].
  split; [exact built_lookup_accounts|].
  split; [exact built_lookup_categories|].
  exact (RoundTrip.load_data_ordered read_id built _ _ _
           built_lookup_transactions built_lookup_accounts
           built_lookup_categories).
Defined.

Lemma prepared_span : App.default_range prepared = inr span.
Proof. vm_compute. reflexivity. Qed.

(** The sample frame at the default controls: its row without a date is
    the only one left out. *)
Lemma default_controls_show_dated_witness :
  App.default_range prepared = inr span
  /\ App.pipeline prepared (App.default_controls prepared span)
     = List.filter Criteria.has_date prepared.
Proof.
  split; [exact prepared_span|].
  exact (ReportingFacts.default_controls_show_dated prepared span
           prepared_span).
Defined.

Lemma nleb_total a b : nleb a b = false -> nleb b a = true.
Proof. unfold nleb. intros H. apply Z.leb_gt in H. apply Z.leb_le. lia. Qed.

Lemma nleb_trans a b c :
  nleb a b = true -> nleb b c = true -> nleb a c = true.
Proof. unfold nleb. rewrite !Z.leb_le. lia. Qed.

(** The largest expenses of the sample frame, amounts compared as
    integers. *)
Lemma top5_largest_witness :
  (forall a b, nleb a b = false -> nleb b a = true)
  /\ (forall a b c, nleb a b = true -> nleb b c = true -> nleb a c = true)
  /\ length (Charts.top5 nleb (Charts.expense_df prepared))
     = Nat.min 5 (length (Charts.expense_df prepared))
  /\ Sorted (fun r1 r2 : App.view_row num =>
               Charts.amount_ge nleb (App.amount (App.loaded r1))
                 (App.amount (App.loaded r2)) = true)
       (Charts.top5 nleb (Charts.expense_df prepared)).
Proof.
  split; [exact nleb_total|]. split; [exact nleb_trans|].
  pose proof (ChartFacts.top5_largest nleb nleb_total nleb_trans
                (Charts.expense_df prepared)) as H.
  split; [exact (proj1 H) | exact (proj1 (proj2 H))].
Defined.

End MoreSamples.
